(** * Cart / stock consistency of the [tienda] application

    A shallow embedding of the views of [tienda/views.py] that touch the
    shopping cart and the stock ([agregar_al_carrito], [actualizar_carrito],
    [eliminar_del_carrito], [vaciar_carrito], [procesar_pago]) and of the
    public listing ([catalogo]), over the tables declared in
    [tienda/models.py].

    Each table is a finite map from primary key to row, a model instance is a
    pair (primary key, row), and a view is a function in a state-and-exception
    monad over the database.  Django runs these views in autocommit mode, so
    whatever a view wrote before an exception escapes stays written: the
    monad returns the database in both outcomes. *)

From stdpp Require Import gmap strings list fin_maps sorting.
From Stdlib Require Import ZArith Lia Ascii.

Local Open Scope Z_scope.

(** ** tienda/models.py *)

Module Models.

(** [Producto]: the columns the views read.  [precio] is the price in
    hundredths (DecimalField with two decimal places), [creado] the creation
    instant; [stock] is kept in [Z] so that non-negativity is a property and
    not a typing fact.  The texts [descripcion], [especificaciones] and
    [imagen_url], which these views only display, and the [auto_now]
    instant [actualizado], which every [save()] sets to the current time and
    no view reads, are not carried: an equation between rows or tables below
    speaks of the columns of this record and of no other. *)
Record Producto := mkProducto {
  categoria_id : Z;
  nombre : string;
  marca : string;
  modelo : string;
  precio : Z;
  stock : Z;
  creado : Z
}.

(** [Carrito]: one row per cart, [usuario] is the owner's key.  No view
    saves a cart row after it was created. *)
Record Carrito := mkCarrito {
  usuario : Z
}.

(** [ItemCarrito]: one line of a cart, with the columns the views read.  The
    instants [creado] and [actualizado] are not carried; [actualizado]
    ([auto_now]) is set to the current time by every [save()] of the row. *)
Record ItemCarrito := mkItemCarrito {
  carrito_id : Z;
  producto_id : Z;
  cantidad : Z
}.

Record DB := mkDB {
  productos : gmap Z Producto;
  carritos : gmap Z Carrito;
  items : gmap Z ItemCarrito
}.

Definition set_stock (n : Z) (p : Producto) : Producto :=
  mkProducto (categoria_id p) (nombre p) (marca p) (modelo p) (precio p) n (creado p).

Definition set_cantidad (n : Z) (it : ItemCarrito) : ItemCarrito :=
  mkItemCarrito (carrito_id it) (producto_id it) n.

Definition set_productos (ps : gmap Z Producto) (db : DB) : DB :=
  mkDB ps (carritos db) (items db).

Definition set_carritos (cs : gmap Z Carrito) (db : DB) : DB :=
  mkDB (productos db) cs (items db).

Definition set_items (its : gmap Z ItemCarrito) (db : DB) : DB :=
  mkDB (productos db) (carritos db) its.

Global Instance Producto_eq_dec : EqDecision Producto.
Proof. solve_decision. Defined.
Global Instance Carrito_eq_dec : EqDecision Carrito.
Proof. solve_decision. Defined.
Global Instance ItemCarrito_eq_dec : EqDecision ItemCarrito.
Proof. solve_decision. Defined.
Global Instance DB_eq_dec : EqDecision DB.
Proof. solve_decision. Defined.

End Models.
Export Models.

(** ** The view monad and the ORM calls the views make *)

Module ORM.

Inductive Excepcion :=
| Http404
| DoesNotExist
| MultipleObjectsReturned
| ValueError
| PageNotAnInteger
| EmptyPage.

Global Instance Excepcion_eq_dec : EqDecision Excepcion.
Proof. solve_decision. Defined.

(** A computation that reads and writes the database and either returns a
    value or lets an exception escape. *)
Definition Vista (A : Type) : Type := DB → (Excepcion + A) * DB.

Definition ret {A} (a : A) : Vista A := λ db, (inr a, db).

Definition raise {A} (e : Excepcion) : Vista A := λ db, (inl e, db).

Definition bind {A B} (m : Vista A) (k : A → Vista B) : Vista B :=
  λ db, match m db with
        | (inr a, db') => k a db'
        | (inl e, db') => (inl e, db')
        end.

(** [try: m except e: h] *)
Definition try_except {A} (m : Vista A) (e : Excepcion) (h : Vista A) : Vista A :=
  λ db, match m db with
        | (inl e', db') => if decide (e' = e) then h db' else (inl e', db')
        | r => r
        end.

(** [try: m except e1: h1 except e2: h2]; an exception of a handler is not
    handled by the other clause. *)
Definition try_except_2 {A} (m : Vista A)
    (e1 : Excepcion) (h1 : Vista A) (e2 : Excepcion) (h2 : Vista A) : Vista A :=
  λ db, match m db with
        | (inl e', db') =>
            if decide (e' = e1) then h1 db'
            else if decide (e' = e2) then h2 db'
            else (inl e', db')
        | r => r
        end.

Definition lee {A} (f : DB → A) : Vista A := λ db, (inr (f db), db).

Definition escribe (f : DB → DB) : Vista unit := λ db, (inr tt, f db).

Definition lift {A} (r : Excepcion + A) : Vista A := λ db, (r, db).

(** The views below are written with stdpp's monad notations:
    [x ← m; k] and [m ;; k]. *)
Global Instance Vista_ret : MRet Vista := @ret.
Global Instance Vista_bind : MBind Vista := λ A B k m, bind m k.

Section Queries.
Context {R : Type}.

(** [Model.objects.filter(...)]: the rows that satisfy the lookup. *)
Definition objects_filter (P : Z * R → Prop) `{!∀ x, Decision (P x)}
    (t : gmap Z R) : list (Z * R) :=
  filter P (map_to_list t).

(** [Model.objects.get(...)]: the one row that satisfies the lookup. *)
Definition objects_get (P : Z * R → Prop) `{!∀ x, Decision (P x)}
    (t : gmap Z R) : Excepcion + (Z * R) :=
  match objects_filter P t with
  | [] => inl DoesNotExist
  | [x] => inr x
  | _ => inl MultipleObjectsReturned
  end.

(** [get_object_or_404]: [DoesNotExist] becomes [Http404], anything else
    is left alone. *)
Definition get_object_or_404 (P : Z * R → Prop) `{!∀ x, Decision (P x)}
    (t : gmap Z R) : Excepcion + (Z * R) :=
  match objects_get P t with
  | inl DoesNotExist => inl Http404
  | r => r
  end.

(** [Model.objects.create(...)]: the database picks an unused key. *)
Definition objects_create (r : R) (t : gmap Z R) : (Z * R) * gmap Z R :=
  let pk := fresh (dom t) in ((pk, r), <[pk := r]> t).

(** [instance.save()]: UPDATE the row of that key, INSERT when absent. *)
Definition instance_save (x : Z * R) (t : gmap Z R) : gmap Z R :=
  <[x.1 := x.2]> t.

(** [instance.delete()] *)
Definition instance_delete (x : Z * R) (t : gmap Z R) : gmap Z R :=
  delete x.1 t.

(** [queryset.delete()] for the queryset [filter(P)]. *)
Definition queryset_delete (P : Z * R → Prop) `{!∀ x, Decision (P x)}
    (t : gmap Z R) : gmap Z R :=
  filter (λ x, ¬ P x) t.

End Queries.

End ORM.
Export ORM.

(** ** tienda/views.py: the cart views *)

Module Views.

(** [messages.success], [messages.warning], [messages.error]. *)
Inductive Nivel := success | warning | error.

(** The texts the cart views flash, with the values their f-strings
    interpolate. *)
Inductive Texto :=
| AnadidaOtraUnidad (nombre_producto : string)
| AnadidoAlCarrito (nombre_producto : string)
| NoHaySuficienteStock (nombre_producto : string)
| NoHaySuficienteStockDisponible (nombre_producto : string) (disponible : Z)
| CantidadIncrementada (nombre_producto : string)
| CantidadReducida (nombre_producto : string)
| EliminadoDelCarrito (nombre_producto : string)
| CantidadActualizada (nombre_producto : string)
| CantidadNoValida
| CarritoVaciado
| NoHayProductosEnElCarrito
| PagoProcesado.

(** [redirect('ver_carrito')] and [redirect('catalogo')]. *)
Inductive Destino := a_ver_carrito | a_catalogo.

(** Every cart view ends in [redirect(...)] after flashing one message. *)
Record Respuesta := redirect {
  destino : Destino;
  mensaje : Nivel * Texto
}.

(** A POST (or GET) parameter that the view passes to [int(...)]. *)
Inductive Parametro := Ausente | NoEntero | Entero (n : Z).

(** [int(request.POST.get(name, default))]: [None] stands for the
    [ValueError] of a text that is not an integer literal. *)
Definition int_param (p : Parametro) (default : Z) : option Z :=
  match p with
  | Ausente => Some default
  | NoEntero => None
  | Entero n => Some n
  end.

Record POST := mkPOST {
  action : option string;
  cantidad_post : Parametro
}.

(** *** Queries of the views *)

(** [get_object_or_404(Producto, id=producto_id)] *)
Definition Producto_get_or_404 (pk : Z) : Vista (Z * Producto) :=
  λ db, (get_object_or_404 (λ p, p.1 = pk) (productos db), db).

(** [Carrito.objects.get(usuario=user)] *)
Definition Carrito_get (user : Z) : Vista (Z * Carrito) :=
  λ db, (objects_get (λ c, usuario c.2 = user) (carritos db), db).

(** [get_object_or_404(Carrito, usuario=user)] *)
Definition Carrito_get_or_404 (user : Z) : Vista (Z * Carrito) :=
  λ db, (get_object_or_404 (λ c, usuario c.2 = user) (carritos db), db).

Definition Carrito_create (c : Carrito) : Vista (Z * Carrito) :=
  λ db, let r := objects_create c (carritos db) in
        (inr r.1, set_carritos r.2 db).

(** [Carrito.objects.get_or_create(usuario=user)], with the flag
    [created]. *)
Definition Carrito_get_or_create (user : Z) : Vista ((Z * Carrito) * bool) :=
  try_except
    (c ← Carrito_get user; mret (c, false))
    DoesNotExist
    (c ← Carrito_create (mkCarrito user); mret (c, true)).

(** [ItemCarrito.objects.get(carrito=carrito, producto=producto)] *)
Definition ItemCarrito_get (carrito : Z * Carrito) (producto : Z * Producto)
    : Vista (Z * ItemCarrito) :=
  λ db, (objects_get
           (λ it, carrito_id it.2 = carrito.1 ∧ producto_id it.2 = producto.1)
           (items db), db).

(** The lookup [id=item_id, carrito__usuario=user]: the item of that key
    whose cart belongs to [user]. *)
Definition item_de_usuario (db : DB) (item_id user : Z) (it : Z * ItemCarrito) : Prop :=
  it.1 = item_id ∧ usuario <$> carritos db !! carrito_id it.2 = Some user.

Global Instance item_de_usuario_dec db item_id user it :
  Decision (item_de_usuario db item_id user it).
Proof. unfold item_de_usuario. apply _. Defined.

(** [get_object_or_404(ItemCarrito, id=item_id, carrito__usuario=user)] *)
Definition ItemCarrito_get_or_404 (item_id user : Z) : Vista (Z * ItemCarrito) :=
  λ db, (get_object_or_404 (item_de_usuario db item_id user) (items db), db).

Definition ItemCarrito_create (it : ItemCarrito) : Vista (Z * ItemCarrito) :=
  λ db, let r := objects_create it (items db) in
        (inr r.1, set_items r.2 db).

Definition ItemCarrito_save (it : Z * ItemCarrito) : Vista unit :=
  escribe (λ db, set_items (instance_save it (items db)) db).

Definition ItemCarrito_delete (it : Z * ItemCarrito) : Vista unit :=
  escribe (λ db, set_items (instance_delete it (items db)) db).

Definition Producto_save (p : Z * Producto) : Vista unit :=
  escribe (λ db, set_productos (instance_save p (productos db)) db).

(** [item.producto]: the related row, fetched through the foreign key. *)
Definition item_producto (it : Z * ItemCarrito) : Vista (Z * Producto) :=
  λ db, (match productos db !! producto_id it.2 with
         | Some p => inr (producto_id it.2, p)
         | None => inl DoesNotExist
         end, db).

(** [carrito.items.select_related('producto').all()]: the items of the
    cart, each joined with its product row as it is now. *)
Definition carrito_items_select_related (carrito : Z * Carrito) (db : DB)
    : list ((Z * ItemCarrito) * (Z * Producto)) :=
  omap (λ it, p ← productos db !! producto_id it.2;
              Some (it, (producto_id it.2, p)))
       (objects_filter (λ it, carrito_id it.2 = carrito.1) (items db)).

(** [carrito.items.all().delete()] *)
Definition carrito_items_delete (carrito : Z * Carrito) : Vista unit :=
  escribe (λ db, set_items
                   (queryset_delete (λ it, carrito_id it.2 = carrito.1) (items db)) db).

(** *** agregar_al_carrito *)

Definition agregar_al_carrito (user producto_id : Z) : Vista Respuesta :=
  producto ← Producto_get_or_404 producto_id;
  '(carrito, created) ← Carrito_get_or_create user;
  msg ← try_except
    (item_carrito ← ItemCarrito_get carrito producto;
     if decide (cantidad item_carrito.2 < stock producto.2) then
       ItemCarrito_save
         (item_carrito.1, set_cantidad (cantidad item_carrito.2 + 1) item_carrito.2);;
       mret (success, AnadidaOtraUnidad (nombre producto.2))
     else
       mret (warning, NoHaySuficienteStock (nombre producto.2)))
    DoesNotExist
    (ItemCarrito_create (mkItemCarrito carrito.1 producto.1 1);;
     mret (success, AnadidoAlCarrito (nombre producto.2)));
  carrito ← Carrito_get user;
  mret (redirect a_ver_carrito msg).

(** *** actualizar_carrito *)

Definition actualizar_carrito (user item_id : Z) (post : POST) : Vista Respuesta :=
  item ← ItemCarrito_get_or_404 item_id user;
  msg ←
    (if decide (action post = Some "increase"%string) then
       producto ← item_producto item;
       if decide (cantidad item.2 < stock producto.2) then
         ItemCarrito_save (item.1, set_cantidad (cantidad item.2 + 1) item.2);;
         mret (success, CantidadIncrementada (nombre producto.2))
       else
         mret (warning,
               NoHaySuficienteStockDisponible (nombre producto.2) (stock producto.2))
     else if decide (action post = Some "decrease"%string) then
       if decide (cantidad item.2 > 1) then
         ItemCarrito_save (item.1, set_cantidad (cantidad item.2 - 1) item.2);;
         producto ← item_producto item;
         mret (success, CantidadReducida (nombre producto.2))
       else
         ItemCarrito_delete item;;
         producto ← item_producto item;
         mret (success, EliminadoDelCarrito (nombre producto.2))
     else
       match int_param (cantidad_post post) 1 with
       | Some nueva_cantidad =>
           if decide (nueva_cantidad ≤ 0) then
             ItemCarrito_delete item;;
             producto ← item_producto item;
             mret (success, EliminadoDelCarrito (nombre producto.2))
           else
             producto ← item_producto item;
             if decide (nueva_cantidad > stock producto.2) then
               mret (warning,
                     NoHaySuficienteStockDisponible (nombre producto.2) (stock producto.2))
             else
               ItemCarrito_save (item.1, set_cantidad nueva_cantidad item.2);;
               mret (success, CantidadActualizada (nombre producto.2))
       | None => mret (error, CantidadNoValida)
       end);
  mret (redirect a_ver_carrito msg).

(** *** eliminar_del_carrito *)

Definition eliminar_del_carrito (user item_id : Z) : Vista Respuesta :=
  item ← ItemCarrito_get_or_404 item_id user;
  producto ← item_producto item;
  let nombre_producto := nombre producto.2 in
  ItemCarrito_delete item;;
  mret (redirect a_ver_carrito (success, EliminadoDelCarrito nombre_producto)).

(** *** vaciar_carrito *)

Definition vaciar_carrito (user : Z) : Vista Respuesta :=
  carrito ← Carrito_get_or_404 user;
  carrito_items_delete carrito;;
  mret (redirect a_ver_carrito (success, CarritoVaciado)).

(** *** procesar_pago *)

(** The first loop: stop at the first item that asks for more than its
    product has. *)
Fixpoint verificar_stock (its : list ((Z * ItemCarrito) * (Z * Producto)))
    : option Respuesta :=
  match its with
  | [] => None
  | (item, producto) :: resto =>
      if decide (cantidad item.2 > stock producto.2) then
        Some (redirect a_ver_carrito
                (error, NoHaySuficienteStockDisponible
                          (nombre producto.2) (stock producto.2)))
      else verificar_stock resto
  end.

(** The second loop: each item's own copy of its product is decremented and
    saved. *)
Fixpoint actualizar_stock (its : list ((Z * ItemCarrito) * (Z * Producto)))
    : Vista unit :=
  match its with
  | [] => mret tt
  | (item, producto) :: resto =>
      Producto_save
        (producto.1, set_stock (stock producto.2 - cantidad item.2) producto.2);;
      actualizar_stock resto
  end.

Definition procesar_pago (user : Z) : Vista Respuesta :=
  carrito ← Carrito_get_or_404 user;
  its ← lee (carrito_items_select_related carrito);
  match its with
  | [] => mret (redirect a_ver_carrito (warning, NoHayProductosEnElCarrito))
  | _ =>
      match verificar_stock its with
      | Some respuesta => mret respuesta
      | None =>
          actualizar_stock its;;
          carrito_items_delete carrito;;
          mret (redirect a_catalogo (success, PagoProcesado))
      end
  end.

End Views.
Export Views.

(** ** tienda/views.py: the public pages *)

Module Publico.

(** *** What the views use of Django *)

(** [icontains]: containment without regard to case, here on the ASCII
    letters. *)
Definition minuscula (c : ascii) : ascii :=
  let n := nat_of_ascii c in
  if decide (65 ≤ n ≤ 90)%nat then ascii_of_nat (n + 32) else c.

Fixpoint lower (s : string) : string :=
  match s with
  | EmptyString => EmptyString
  | String c s' => String (minuscula c) (lower s')
  end.

Fixpoint contiene (aguja pajar : string) : bool :=
  String.prefix aguja pajar ||
  match pajar with
  | EmptyString => false
  | String _ resto => contiene aguja resto
  end.

Definition icontains (campo q : string) : bool :=
  contiene (lower q) (lower campo).

(** [order_by('-creado')]: newest first. *)
Definition mas_reciente (x y : Z * Producto) : Prop := creado y.2 ≤ creado x.2.

Global Instance mas_reciente_dec x y : Decision (mas_reciente x y).
Proof. unfold mas_reciente. apply _. Defined.

Definition order_by_creado_desc (l : list (Z * Producto)) : list (Z * Producto) :=
  merge_sort mas_reciente l.

(** [Paginator(object_list, 12)], with no orphans and an empty first page
    allowed (the defaults). *)
Definition per_page : Z := 12.

Definition num_pages (count : Z) : Z :=
  (Z.max 1 count + per_page - 1) / per_page.

Definition validate_number (count : Z) (number : Parametro) : Excepcion + Z :=
  match int_param number 1 with
  | None => inl PageNotAnInteger
  | Some n =>
      if decide (n < 1) then inl EmptyPage
      else if decide (n > num_pages count) then inl EmptyPage
      else inr n
  end.

(** [object_list[bottom:top]] for [0 ≤ bottom]. *)
Definition slice {A} (l : list A) (bottom top : Z) : list A :=
  take (Z.to_nat (top - bottom)) (drop (Z.to_nat bottom) l).

Definition paginator_page {A} (l : list A) (number : Parametro) : Excepcion + list A :=
  let count := Z.of_nat (length l) in
  match validate_number count number with
  | inl e => inl e
  | inr n =>
      let bottom := (n - 1) * per_page in
      let top := bottom + per_page in
      let top := if decide (top >= count) then count else top in
      inr (slice l bottom top)
  end.

(** *** catalogo *)

Record GET := mkGET {
  categoria_get : Parametro;
  q_get : option string;
  page_get : Parametro
}.

(** What the view hands to the template: the page of products and the
    query.  (The list of all categories, for the menu, is left out.) *)
Record Contexto := mkContexto {
  ctx_productos : list (Z * Producto);
  ctx_query : string
}.

Definition catalogo (get : GET) : Vista Contexto :=
  productos_list ← lee (λ db,
    order_by_creado_desc (objects_filter (λ p, stock p.2 > 0) (productos db)));
  (* [if categoria_id:]; a value that is not a number makes the filter raise
     [ValueError] *)
  productos_list ←
    match categoria_get get with
    | Ausente => mret productos_list
    | NoEntero => raise ValueError
    | Entero c => mret (filter (λ p, categoria_id p.2 = c) productos_list)
    end;
  let q := q_get get in
  let productos_list :=
    match q with
    | None | Some EmptyString => productos_list
    | Some q =>
        filter (λ p, icontains (nombre p.2) q || icontains (marca p.2) q
                     || icontains (modelo p.2) q) productos_list
    end in
  let paginator := paginator_page productos_list in
  productos ←
    try_except_2 (lift (paginator (page_get get)))
      PageNotAnInteger (lift (paginator (Entero 1)))
      EmptyPage (lift (paginator
                         (Entero (num_pages (Z.of_nat (length productos_list))))));
  mret (mkContexto productos (default EmptyString q)).

(** *** producto_detalle *)

Definition producto_detalle (pk : Z) : Vista (Z * Producto) :=
  producto ← Producto_get_or_404 pk;
  mret producto.

End Publico.
Export Publico.

(** ** Vocabulary of the statements *)

(** [carrito] is the cart of [user]: a row of [Carrito] owned by [user], and
    the only one (the one-to-one field of the model). *)
Definition carrito_de (db : DB) (user : Z) (carrito : Z * Carrito) : Prop :=
  carritos db !! carrito.1 = Some carrito.2 ∧
  usuario carrito.2 = user ∧
  ∀ k c, carritos db !! k = Some c → usuario c = user → k = carrito.1.

(** [user] owns no cart row. *)
Definition sin_carrito (db : DB) (user : Z) : Prop :=
  ∀ k c, carritos db !! k = Some c → usuario c ≠ user.

(** The kinds of outcome of the specification, read off the response. *)
Definition InsufficientStock (r : Excepcion + Respuesta) : Prop :=
  match r with
  | inr (redirect a_ver_carrito (warning, NoHaySuficienteStock _))
  | inr (redirect a_ver_carrito (warning, NoHaySuficienteStockDisponible _ _))
  | inr (redirect a_ver_carrito (error, NoHaySuficienteStockDisponible _ _)) => True
  | _ => False
  end.

Definition EmptyCart (r : Excepcion + Respuesta) : Prop :=
  r = inr (redirect a_ver_carrito (warning, NoHayProductosEnElCarrito)).

Definition exito (r : Excepcion + Respuesta) : Prop :=
  match r with
  | inr (redirect _ (success, _)) => True
  | _ => False
  end.


(** A product that the listing may show: a row of the table with at least
    one unit in stock. *)
Definition en_stock (db : DB) (x : Z * Producto) : Prop :=
  productos db !! x.1 = Some x.2 ∧ 1 ≤ stock x.2.


(** ** The cart interface as a transition system *)

(** A request to one of the cart views. *)
Inductive Operacion :=
| Agregar (user producto_id : Z)
| Actualizar (user item_id : Z) (post : POST)
| Eliminar (user item_id : Z)
| Vaciar (user : Z)
| Pagar (user : Z).

Definition ejecutar (op : Operacion) : Vista Respuesta :=
  match op with
  | Agregar user producto_id => agregar_al_carrito user producto_id
  | Actualizar user item_id post => actualizar_carrito user item_id post
  | Eliminar user item_id => eliminar_del_carrito user item_id
  | Vaciar user => vaciar_carrito user
  | Pagar user => procesar_pago user
  end.

(** The database after a request, whatever the response was. *)
Definition paso (db : DB) (op : Operacion) : DB := (ejecutar op db).2.

(** The database after a sequence of requests. *)
Definition historia (db : DB) (ops : list Operacion) : DB := foldl paso db ops.

(** The writes a cart view can make, each with what the view has checked
    when it makes it. *)
Inductive efecto (db : DB) : DB → Prop :=
| ef_crea_carrito user :
    sin_carrito db user →
    efecto db (set_carritos
                 (<[fresh (dom (carritos db)) := mkCarrito user]> (carritos db)) db)
| ef_crea_item cid pid :
    (∀ k it, items db !! k = Some it →
             ¬ (carrito_id it = cid ∧ producto_id it = pid)) →
    efecto db (set_items
                 (<[fresh (dom (items db)) := mkItemCarrito cid pid 1]> (items db)) db)
| ef_cambia_cantidad k it n :
    items db !! k = Some it →
    (1 ≤ cantidad it → 1 ≤ n) →
    efecto db (set_items (<[k := set_cantidad n it]> (items db)) db)
| ef_borra_item k :
    efecto db (set_items (delete k (items db)) db)
| ef_vacia_carrito cid :
    efecto db (set_items
                 (queryset_delete (λ it : Z * ItemCarrito, carrito_id it.2 = cid)
                    (items db)) db)
| ef_guarda_producto pk p :
    0 ≤ stock p →
    efecto db (set_productos (<[pk := p]> (productos db)) db).

(** ** Invariants of the data model *)

Definition stock_no_negativo (db : DB) : Prop :=
  ∀ pk p, productos db !! pk = Some p → 0 ≤ stock p.

Definition cantidades_positivas (db : DB) : Prop :=
  ∀ k it, items db !! k = Some it → 1 ≤ cantidad it.


Definition un_item_por_producto (db : DB) : Prop :=
  ∀ k1 k2 it1 it2,
    items db !! k1 = Some it1 → items db !! k2 = Some it2 →
    carrito_id it1 = carrito_id it2 → producto_id it1 = producto_id it2 →
    k1 = k2.

(** ** Example databases *)

Module Ejemplos.

Definition producto_A : Producto := mkProducto 1 "A" "marca" "modelo" 1000 5 10.
Definition producto_B : Producto := mkProducto 1 "B" "marca" "modelo" 2500 2 20.
Definition producto_agotado : Producto := mkProducto 2 "C" "marca" "modelo" 300 0 30.

(** User 7 owns cart 1, which holds [qa] units of A (stock 5) and [qb] units
    of B (stock 2); user 8 owns no cart. *)
Definition db_AB (qa qb : Z) : DB :=
  mkDB {[ 1 := producto_A; 2 := producto_B; 3 := producto_agotado ]}
       {[ 1 := mkCarrito 7 ]}
       {[ 1 := mkItemCarrito 1 1 qa; 2 := mkItemCarrito 1 2 qb ]}.

(** User 7 owns cart 1, which is empty. *)
Definition db_vacio : DB :=
  mkDB {[ 1 := producto_A; 2 := producto_B; 3 := producto_agotado ]}
       {[ 1 := mkCarrito 7 ]} ∅.

(** Products only: no cart, no item. *)
Definition db_inicial : DB :=
  mkDB {[ 1 := producto_A; 2 := producto_B; 3 := producto_agotado ]} ∅ ∅.

(** User 7 adds product A twice and product B once, lowers B to nothing,
    user 8 adds B, and user 7 pays. *)
Definition compra : list Operacion :=
  [ Agregar 7 1; Agregar 7 1; Agregar 7 2; Agregar 8 2;
    Actualizar 7 1 (mkPOST (Some "decrease"%string) Ausente);
    Pagar 7 ].

End Ejemplos.

(** ** tienda/models.py and tienda/views.py: what the cart shows *)

Module Consultas.

(** Python's [sum(...)]: the running total starts at 0. *)
Definition py_sum (l : list Z) : Z := foldl Z.add 0 l.

(** [sum(f(x) for x in l)] where evaluating [f(x)] queries the database: the
    terms are evaluated in order and the first exception escapes. *)
Fixpoint sum_vista {A} (f : A → Vista Z) (l : list A) (acc : Z) : Vista Z :=
  match l with
  | [] => mret acc
  | x :: resto => v ← f x; sum_vista f resto (acc + v)
  end.

(** [ItemCarrito.subtotal] *)
Definition subtotal (item : Z * ItemCarrito) : Vista Z :=
  producto ← item_producto item;
  mret (precio producto.2 * cantidad item.2).

(** [carrito.items.all()] *)
Definition carrito_items_all (carrito : Z * Carrito) (db : DB) : list (Z * ItemCarrito) :=
  objects_filter (λ it, carrito_id it.2 = carrito.1) (items db).

(** [Carrito.total] *)
Definition Carrito_total (carrito : Z * Carrito) : Vista Z :=
  its ← lee (carrito_items_all carrito);
  sum_vista subtotal its 0.

(** [Carrito.cantidad_items] *)
Definition Carrito_cantidad_items (carrito : Z * Carrito) : Vista Z :=
  its ← lee (carrito_items_all carrito);
  mret (py_sum ((λ item, cantidad item.2) <$> its)).

(** *** ver_carrito *)

Record ContextoCarrito := mkContextoCarrito {
  items_con_subtotal : list (((Z * ItemCarrito) * (Z * Producto)) * Z);
  total : Z
}.

Definition ver_carrito (user : Z) : Vista ContextoCarrito :=
  '(carrito, created) ← Carrito_get_or_create user;
  its ← lee (carrito_items_select_related carrito);
  let items_con_subtotal :=
    (λ item : (Z * ItemCarrito) * (Z * Producto),
       (item, cantidad item.1.2 * precio item.2.2)) <$> its in
  let total := py_sum (snd <$> items_con_subtotal) in
  mret (mkContextoCarrito items_con_subtotal total).

(** *** api_carrito_cantidad *)

(** [JsonResponse({'cantidad': ..., 'message': ...}, status=...)]; the
    message, when there is one, is built from the exception. *)
Record JsonResponse := mkJsonResponse {
  status : Z;
  json_cantidad : Z;
  json_message : option Excepcion
}.

(** [queryset.aggregate(total=Sum(campo))['total']]: [None] over no row. *)
Definition aggregate_Sum (l : list Z) : option Z :=
  match l with
  | [] => None
  | _ => Some (py_sum l)
  end.

(** [try: m except e1: h1 except Exception as e: h e] *)
Definition try_except_Exception {A} (m : Vista A)
    (e1 : Excepcion) (h1 : Vista A) (h : Excepcion → Vista A) : Vista A :=
  λ db, match m db with
        | (inl e', db') => if decide (e' = e1) then h1 db' else h e' db'
        | r => r
        end.

Definition api_carrito_cantidad (user : Z) : Vista JsonResponse :=
  r ← try_except_Exception
         (carrito ← Carrito_get user;
          agregado ← lee (λ db, aggregate_Sum
                                  ((λ item, cantidad item.2) <$> carrito_items_all carrito db));
          let cantidad := default 0 agregado in
          mret (inr cantidad))
         DoesNotExist (mret (inr 0))
         (λ e, mret (inl (mkJsonResponse 500 0 (Some e))));
  match r with
  | inl respuesta => mret respuesta
  | inr cantidad => mret (mkJsonResponse 200 cantidad None)
  end.

End Consultas.
Export Consultas.

(** ** tienda/views.py: removing a product *)

Module Administracion.

(** [request.user] as the decorators see it. *)
Record User := mkUser {
  user_pk : Z;
  is_authenticated : bool;
  is_staff : bool
}.

Definition es_admin (user : User) : bool := is_staff user.

(** What a decorated view answers: the decorator's redirect to the login
    page, or what the view itself renders or redirects to. *)
Inductive HttpResponse (A : Type) :=
| redirect_to_login
| respuesta (a : A).
Global Arguments redirect_to_login {A}.
Global Arguments respuesta {A} a.

(** [@user_passes_test(test)] *)
Definition user_passes_test {A} (test : User → bool)
    (vista : User → Vista (HttpResponse A)) (user : User) : Vista (HttpResponse A) :=
  if test user then vista user else mret redirect_to_login.

(** [@login_required] *)
Definition login_required {A} (vista : User → Vista (HttpResponse A))
    : User → Vista (HttpResponse A) :=
  user_passes_test is_authenticated vista.

(** [producto.delete()]: the row goes, and with it every [ItemCarrito] whose
    [producto] is that row ([on_delete=models.CASCADE]). *)
Definition Producto_delete (producto : Z * Producto) : Vista unit :=
  escribe (λ db,
    mkDB (instance_delete producto (productos db))
         (carritos db)
         (queryset_delete (λ it : Z * ItemCarrito, producto_id it.2 = producto.1)
            (items db))).

(** What [producto_eliminar] answers: the redirect to the catalogue after
    the deletion, or the confirmation page for the product. *)
Inductive PaginaEliminar :=
| ProductoEliminado
| Confirmar (producto : Z * Producto).

Definition producto_eliminar (method : string) (pk : Z)
    : User → Vista (HttpResponse PaginaEliminar) :=
  login_required (user_passes_test es_admin (λ _,
    producto ← Producto_get_or_404 pk;
    if decide (method = "POST"%string) then
      Producto_delete producto;;
      mret (respuesta ProductoEliminado)
    else
      mret (respuesta (Confirmar producto)))).

End Administracion.
Export Administracion.

(** ** Vocabulary of the further statements *)

(** The owner of the cart of key [cid], when that cart exists. *)
Definition propietario (db : DB) (cid : Z) : option Z :=
  usuario <$> carritos db !! cid.

(** Every item points to a product row and to a cart row. *)
Definition integridad (db : DB) : Prop :=
  ∀ k it, items db !! k = Some it →
    is_Some (productos db !! producto_id it) ∧ is_Some (carritos db !! carrito_id it).

(** Two product rows that differ at most in their stock. *)
Definition mismo_salvo_stock (p q : Producto) : Prop := set_stock 0 p = set_stock 0 q.

Global Instance mismo_salvo_stock_equiv : Equivalence mismo_salvo_stock.
Proof.
  unfold mismo_salvo_stock. split.
  - by intros p.
  - by intros p q.
  - intros p q r. congruence.
Qed.

Global Instance mas_reciente_trans : Transitive mas_reciente.
Proof. unfold mas_reciente. intros x y z ??. lia. Qed.

Global Instance mas_reciente_total : Total mas_reciente.
Proof. unfold mas_reciente. intros x y. lia. Qed.

(** A request to the cart interface: one of the five views that change a
    cart, the page of the cart, which creates the cart of a user who has
    none, or the counter of the cart. *)
Inductive Peticion :=
| Operar (op : Operacion)
| VerCarrito (user : Z)
| ContarCarrito (user : Z).

(** The database after a request to the cart interface, whatever the
    response was. *)
Definition atender (db : DB) (pet : Peticion) : DB :=
  match pet with
  | Operar op => paso db op
  | VerCarrito user => (ver_carrito user db).2
  | ContarCarrito user => (api_carrito_cantidad user db).2
  end.

(** The database after a sequence of requests to the cart interface. *)
Definition peticiones (db : DB) (pets : list Peticion) : DB := foldl atender db pets.

(** The columns of a product row other than its stock. *)
Definition mismas_columnas (p q : Producto) : Prop :=
  categoria_id p = categoria_id q ∧ nombre p = nombre q ∧ marca p = marca q ∧
  modelo p = modelo q ∧ precio p = precio q ∧ creado p = creado q.

(** The user on whose behalf a request runs. *)
Definition usuario_de (op : Operacion) : Z :=
  match op with
  | Agregar user _ | Actualizar user _ _ | Eliminar user _ | Vaciar user | Pagar user =>
      user
  end.

(** The writes of a cart view made for [user], each with what the view knows
    about the row it writes. *)
Inductive escritura (user : Z) (db : DB) : DB → Prop :=
| es_crea_carrito :
    sin_carrito db user →
    escritura user db
      (set_carritos (<[fresh (dom (carritos db)) := mkCarrito user]> (carritos db)) db)
| es_crea_item cid pid :
    propietario db cid = Some user →
    is_Some (productos db !! pid) →
    escritura user db
      (set_items (<[fresh (dom (items db)) := mkItemCarrito cid pid 1]> (items db)) db)
| es_cambia_cantidad k it n :
    items db !! k = Some it →
    propietario db (carrito_id it) = Some user →
    escritura user db (set_items (<[k := set_cantidad n it]> (items db)) db)
| es_borra_item k it :
    items db !! k = Some it →
    propietario db (carrito_id it) = Some user →
    escritura user db (set_items (delete k (items db)) db)
| es_vacia_carrito cid :
    propietario db cid = Some user →
    escritura user db
      (set_items
         (queryset_delete (λ it : Z * ItemCarrito, carrito_id it.2 = cid) (items db)) db)
| es_guarda_producto pk p n :
    productos db !! pk = Some p →
    escritura user db (set_productos (<[pk := set_stock n p]> (productos db)) db).

(** The carts that [v] owns and the items in them are the same in both
    databases. *)
Definition mismo_carrito (v : Z) (db db' : DB) : Prop :=
  (∀ cid, propietario db' cid = Some v ↔ propietario db cid = Some v) ∧
  (∀ k it, items db' !! k = Some it ∧ propietario db' (carrito_id it) = Some v ↔
           items db !! k = Some it ∧ propietario db (carrito_id it) = Some v).

(** The list that [catalogo] hands to the paginator: the in-stock products,
    newest first, that pass the filters of the request. *)
Definition listado (get : GET) (db : DB) : list (Z * Producto) :=
  let l0 := order_by_creado_desc
              (objects_filter (λ p, stock p.2 > 0) (productos db)) in
  let l1 := match categoria_get get with
            | Entero c => filter (λ p, categoria_id p.2 = c) l0
            | _ => l0
            end in
  match q_get get with
  | None | Some EmptyString => l1
  | Some q =>
      filter (λ p, icontains (nombre p.2) q || icontains (marca p.2) q
                   || icontains (modelo p.2) q) l1
  end.

(** The product passes the category filter and the text filter of the
    request. *)
Definition pasa_filtros (get : GET) (x : Z * Producto) : Prop :=
  match categoria_get get with
  | Entero c => categoria_id x.2 = c
  | _ => True
  end ∧
  match q_get get with
  | None | Some EmptyString => True
  | Some q =>
      icontains (nombre x.2) q || icontains (marca x.2) q || icontains (modelo x.2) q
  end.

(** The units in stock over all products. *)
Definition stock_total (db : DB) : Z :=
  py_sum ((λ x : Z * Producto, stock x.2) <$> map_to_list (productos db)).

(** The request with another page number. *)
Definition con_pagina (get : GET) (number : Parametro) : GET :=
  mkGET (categoria_get get) (q_get get) number.

(** ** Further example data *)

Module Ejemplos2.

(** Users 7 and 8 own carts 1 and 2; cart 1 holds 3 units of A, cart 2 holds
    1 unit of B. *)
Definition db_dos_usuarios : DB :=
  mkDB {[ 1 := Ejemplos.producto_A; 2 := Ejemplos.producto_B;
          3 := Ejemplos.producto_agotado ]}
       {[ 1 := mkCarrito 7; 2 := mkCarrito 8 ]}
       {[ 1 := mkItemCarrito 1 1 3; 2 := mkItemCarrito 2 2 1 ]}.

(** Requests of user 7 only: one more B, one less A, the removal of line 2
    (which is not theirs), and the payment. *)
Definition ops_de_7 : list Operacion :=
  [ Agregar 7 2;
    Actualizar 7 1 (mkPOST (Some "decrease"%string) Ausente);
    Eliminar 7 2;
    Pagar 7 ].


End Ejemplos2.

(** * Properties *)

(** ** What the queries return *)

Section QueryFacts.
Context {R : Type}.
Implicit Types (t : gmap Z R) (x : Z * R).

Lemma elem_of_objects_filter (P : Z * R → Prop) `{!∀ x, Decision (P x)} t x :
  x ∈ objects_filter P t ↔ P x ∧ t !! x.1 = Some x.2.
Proof.
  unfold objects_filter. rewrite list_elem_of_filter.
  destruct x as [k r]. by rewrite elem_of_map_to_list.
Qed.

Lemma NoDup_objects_filter (P : Z * R → Prop) `{!∀ x, Decision (P x)} t :
  NoDup (objects_filter P t).
Proof. apply NoDup_filter, NoDup_map_to_list. Qed.

Lemma objects_filter_nil (P : Z * R → Prop) `{!∀ x, Decision (P x)} t :
  objects_filter P t = [] ↔ ∀ k r, t !! k = Some r → ¬ P (k, r).
Proof.
  split.
  - intros Hnil k r Hk HP.
    assert (Hin : (k, r) ∈ objects_filter P t) by by apply elem_of_objects_filter.
    rewrite Hnil in Hin. by apply elem_of_nil in Hin.
  - intros Hno. apply elem_of_nil_inv. intros [k r] Hin.
    apply elem_of_objects_filter in Hin as [HP Hk]. by eapply Hno.
Qed.

Lemma objects_get_inr (P : Z * R → Prop) `{!∀ x, Decision (P x)} t x :
  objects_get P t = inr x → t !! x.1 = Some x.2 ∧ P x.
Proof.
  unfold objects_get. intros Hget.
  assert (Hin : x ∈ objects_filter P t).
  { destruct (objects_filter P t) as [|y [|z l]]; simplify_eq.
    by apply list_elem_of_singleton. }
  apply elem_of_objects_filter in Hin. tauto.
Qed.

(** The row [objects_get] returns is the only one that satisfies the
    lookup. *)
Lemma objects_get_inr_unique (P : Z * R → Prop) `{!∀ x, Decision (P x)} t x :
  objects_get P t = inr x → ∀ k r, t !! k = Some r → P (k, r) → (k, r) = x.
Proof.
  unfold objects_get. intros Hget k r Hk HP.
  assert (Hin : (k, r) ∈ objects_filter P t) by by apply elem_of_objects_filter.
  destruct (objects_filter P t) as [|y [|z l]]; simplify_eq.
  by apply list_elem_of_singleton in Hin.
Qed.

Lemma objects_get_DoesNotExist (P : Z * R → Prop) `{!∀ x, Decision (P x)} t :
  objects_get P t = inl DoesNotExist ↔ ∀ k r, t !! k = Some r → ¬ P (k, r).
Proof.
  rewrite <- (objects_filter_nil P t). unfold objects_get.
  destruct (objects_filter P t) as [|y [|z l]]; split; intros Heq;
    try done; discriminate Heq.
Qed.

Lemma objects_get_not_Http404 (P : Z * R → Prop) `{!∀ x, Decision (P x)} t :
  objects_get P t ≠ inl Http404.
Proof. unfold objects_get. by destruct (objects_filter P t) as [|y [|z l]]. Qed.

(** A lookup that one row satisfies, and no row of another key, returns that
    row. *)
Lemma objects_get_one (P : Z * R → Prop) `{!∀ x, Decision (P x)} t k r :
  t !! k = Some r → P (k, r) →
  (∀ k' r', t !! k' = Some r' → P (k', r') → k' = k) →
  objects_get P t = inr (k, r).
Proof.
  intros Hk HP Huniq.
  assert (Hin : (k, r) ∈ objects_filter P t) by by apply elem_of_objects_filter.
  assert (Hall : ∀ y, y ∈ objects_filter P t → y = (k, r)).
  { intros [k' r'] Hy. apply elem_of_objects_filter in Hy as [HP' Hk']. simpl in *.
    assert (k' = k) by eauto. subst. congruence. }
  pose proof (NoDup_objects_filter P t) as Hnd.
  unfold objects_get. destruct (objects_filter P t) as [|y [|z l]].
  - by apply elem_of_nil in Hin.
  - f_equal. apply Hall, elem_of_cons. by left.
  - exfalso. apply NoDup_cons in Hnd as [Hy _]. apply Hy.
    rewrite (Hall y), (Hall z); rewrite !elem_of_cons; auto.
Qed.

Lemma get_object_or_404_inr (P : Z * R → Prop) `{!∀ x, Decision (P x)} t x :
  get_object_or_404 P t = inr x ↔ objects_get P t = inr x.
Proof.
  unfold get_object_or_404.
  destruct (objects_get P t) as [[]|]; split; intros Heq;
    try done; discriminate Heq.
Qed.

Lemma get_object_or_404_Http404 (P : Z * R → Prop) `{!∀ x, Decision (P x)} t :
  get_object_or_404 P t = inl Http404 ↔ ∀ k r, t !! k = Some r → ¬ P (k, r).
Proof.
  rewrite <- (objects_get_DoesNotExist P t). unfold get_object_or_404.
  pose proof (objects_get_not_Http404 P t) as Hno.
  destruct (objects_get P t) as [[]|]; split; intros Heq;
    try done; discriminate Heq.
Qed.

Lemma objects_create_fresh (r : R) t : t !! (objects_create r t).1.1 = None.
Proof. unfold objects_create. simpl. apply not_elem_of_dom, is_fresh. Qed.

End QueryFacts.

(** Unfolding of the monad, for proofs by evaluation of a view. *)
Ltac desmonad :=
  unfold mbind, mret, Vista_bind, Vista_ret, bind, ret, lee, escribe,
    try_except, raise in *.

(** A property of every row of a concrete table, by evaluation. *)
Ltac por_tabla :=
  lazymatch goal with
  | |- ∀ k x, ?m !! k = Some x → @?P k x =>
      change (map_Forall P m); cbv beta;
      lazymatch goal with
      | |- ?G =>
          let d := constr:(_ : Decision G) in
          apply (@bool_decide_unpack G d); vm_compute; exact I
      end
  end.

(** A property of every row of a concrete table, row by row. *)
Ltac por_filas :=
  lazymatch goal with
  | |- ∀ k x, ?m !! k = Some x → @?P k x =>
      change (map_Forall P m); apply map_Forall_to_list;
      let l := eval vm_compute in (map_to_list m) in
      change (map_to_list m) with l;
      repeat (apply List.Forall_cons; [simpl|]); [..|apply List.Forall_nil]
  end.

(** ** Facts about the queries of the views *)

Lemma Carrito_get_carrito_de db user carrito :
  carrito_de db user carrito → Carrito_get user db = (inr carrito, db).
Proof.
  intros (Hc & Hu & Huniq). unfold Carrito_get. f_equal.
  destruct carrito as [k c]. apply (objects_get_one _ _ k c); auto.
Qed.

Lemma Carrito_get_inr db user carrito db' :
  Carrito_get user db = (inr carrito, db') → carrito_de db user carrito ∧ db' = db.
Proof.
  unfold Carrito_get. intros [= Hget <-]. split; [|done].
  pose proof (objects_get_inr _ _ _ Hget) as [Hc Hu].
  repeat split; [done..|]. intros k c Hk Hc'.
  by pose proof (objects_get_inr_unique _ _ _ Hget k c Hk Hc') as <-.
Qed.

Lemma Carrito_get_or_404_carrito_de db user carrito :
  carrito_de db user carrito → Carrito_get_or_404 user db = (inr carrito, db).
Proof.
  intros H. apply Carrito_get_carrito_de in H. unfold Carrito_get in H.
  unfold Carrito_get_or_404. f_equal. apply get_object_or_404_inr. congruence.
Qed.

Lemma Carrito_get_or_404_sin_carrito db user :
  sin_carrito db user → Carrito_get_or_404 user db = (inl Http404, db).
Proof.
  intros H. unfold Carrito_get_or_404. f_equal.
  apply get_object_or_404_Http404. intros k c Hk. simpl. by eapply H.
Qed.

Lemma elem_of_carrito_items_select_related carrito db it p :
  (it, p) ∈ carrito_items_select_related carrito db ↔
  items db !! it.1 = Some it.2 ∧ carrito_id it.2 = carrito.1 ∧
  p.1 = producto_id it.2 ∧ productos db !! p.1 = Some p.2.
Proof.
  unfold carrito_items_select_related. rewrite list_elem_of_omap. split.
  - intros (it' & Hin & Hsome). apply elem_of_objects_filter in Hin as [Hc Hit].
    destruct (productos db !! producto_id it'.2) as [q|] eqn:Hq; simplify_eq/=.
    done.
  - intros (Hit & Hc & Hp & Hq). exists it. split.
    + by apply elem_of_objects_filter.
    + destruct p as [pk q]. simpl in *. subst pk. by rewrite Hq.
Qed.

Lemma carrito_items_select_related_nil carrito db :
  (∀ k it, items db !! k = Some it → carrito_id it ≠ carrito.1) →
  carrito_items_select_related carrito db = [].
Proof.
  intros Hno. unfold carrito_items_select_related.
  replace (objects_filter _ _) with (@nil (Z * ItemCarrito)); [done|].
  symmetry. apply objects_filter_nil. intros k it Hk Hc. by eapply Hno.
Qed.

Lemma Producto_get_or_404_Some db pk p :
  productos db !! pk = Some p → Producto_get_or_404 pk db = (inr (pk, p), db).
Proof.
  intros Hp. unfold Producto_get_or_404. f_equal.
  apply get_object_or_404_inr, objects_get_one; [done..|]. by intros k' r' _ Hk'.
Qed.

Lemma ItemCarrito_get_or_404_propio db user k it :
  items db !! k = Some it →
  usuario <$> carritos db !! carrito_id it = Some user →
  ItemCarrito_get_or_404 k user db = (inr (k, it), db).
Proof.
  intros Hit Hown. unfold ItemCarrito_get_or_404. f_equal.
  apply get_object_or_404_inr, objects_get_one; [done..|].
  by intros k' r' _ [Hk' _].
Qed.

Lemma ItemCarrito_get_unico db carrito producto k it :
  items db !! k = Some it →
  carrito_id it = carrito.1 → producto_id it = producto.1 →
  (∀ k' it', items db !! k' = Some it' →
     carrito_id it' = carrito.1 → producto_id it' = producto.1 → k' = k) →
  ItemCarrito_get carrito producto db = (inr (k, it), db).
Proof.
  intros Hit Hc Hp Huniq. unfold ItemCarrito_get. f_equal.
  apply objects_get_one; [done..|]. intros k' it' Hk' [??]. by eapply Huniq.
Qed.

(** The carts of the example databases. *)
Lemma carrito_de_db_AB qa qb : carrito_de (Ejemplos.db_AB qa qb) 7 (1, mkCarrito 7).
Proof. repeat split. simpl. por_tabla. Defined.

Lemma carrito_de_db_vacio : carrito_de Ejemplos.db_vacio 7 (1, mkCarrito 7).
Proof. repeat split. simpl. por_tabla. Defined.

(** ** The two loops of [procesar_pago] *)

Lemma verificar_stock_Some its r :
  verificar_stock its = Some r →
  ∃ item producto, (item, producto) ∈ its ∧
    cantidad item.2 > stock producto.2 ∧
    r = redirect a_ver_carrito
          (error, NoHaySuficienteStockDisponible (nombre producto.2) (stock producto.2)).
Proof.
  induction its as [|[item producto] resto IH]; simpl; [done|].
  case_decide as Hgt.
  - intros [= <-]. exists item, producto. split; [left|done].
  - intros (i & p & Hin & ?)%IH. exists i, p. split; [by right|done].
Qed.

Lemma verificar_stock_None its :
  verificar_stock its = None ↔
  ∀ item producto, (item, producto) ∈ its → cantidad item.2 ≤ stock producto.2.
Proof.
  induction its as [|[item producto] resto IH]; simpl.
  - split; [|done]. intros _ ?? Hin. by apply elem_of_nil in Hin.
  - case_decide as Hgt; split.
    + done.
    + intros Hall. specialize (Hall item producto (list_elem_of_here _ _)). lia.
    + intros Hnone i p [[= -> ->]|Hin]%elem_of_cons; [lia|]. by apply IH.
    + intros Hall. apply IH. intros i p Hin. apply Hall. by right.
Qed.

(** ** procesar_pago *)

(** C9. When the user's cart exists and holds no item, [procesar_pago]
    answers "No hay productos en el carrito" (EmptyCart) and the database is
    left exactly as it was: no product, cart or item row is touched. *)
Theorem procesar_pago_carrito_vacio db user carrito :
  carrito_de db user carrito →
  (∀ k it, items db !! k = Some it → carrito_id it ≠ carrito.1) →
  ∃ r, procesar_pago user db = (r, db) ∧ EmptyCart r.
Proof.
  intros Hcar Hvacio. eexists. split; [|reflexivity].
  unfold procesar_pago. desmonad.
  rewrite (Carrito_get_or_404_carrito_de _ _ _ Hcar).
  by rewrite (carrito_items_select_related_nil _ _ Hvacio).
Qed.

Lemma procesar_pago_carrito_vacio_witness :
  ∃ r, procesar_pago 7 Ejemplos.db_vacio = (r, Ejemplos.db_vacio) ∧ EmptyCart r.
Proof.
  apply (procesar_pago_carrito_vacio Ejemplos.db_vacio 7 (1, mkCarrito 7)).
  - apply carrito_de_db_vacio.
  - simpl. por_tabla.
Defined.

(** C1. When some item of the user's cart asks for more than the current
    stock of its product, [procesar_pago] answers with the insufficient-stock
    error for an item of the cart that exceeds its stock, and the database is
    left exactly as it was: every stock and every item of the cart, the
    offending ones included, is unchanged, so nothing was written before the
    validation failed. *)
Theorem procesar_pago_todo_o_nada db user carrito k it p :
  carrito_de db user carrito →
  items db !! k = Some it →
  carrito_id it = carrito.1 →
  productos db !! producto_id it = Some p →
  cantidad it > stock p →
  ∃ r, procesar_pago user db = (r, db) ∧ InsufficientStock r ∧
    ∃ k' it' p', items db !! k' = Some it' ∧ carrito_id it' = carrito.1 ∧
      productos db !! producto_id it' = Some p' ∧ cantidad it' > stock p' ∧
      r = inr (redirect a_ver_carrito
                 (error, NoHaySuficienteStockDisponible (nombre p') (stock p'))).
Proof.
  intros Hcar Hit Hc Hp Hgt.
  assert (Hin : ((k, it), (producto_id it, p)) ∈ carrito_items_select_related carrito db)
    by by apply elem_of_carrito_items_select_related.
  unfold procesar_pago. desmonad.
  rewrite (Carrito_get_or_404_carrito_de _ _ _ Hcar).
  destruct (carrito_items_select_related carrito db) as [|x its] eqn:Hits.
  { by apply elem_of_nil in Hin. }
  destruct (verificar_stock (x :: its)) as [r|] eqn:Hver.
  - apply verificar_stock_Some in Hver as ([k' it'] & [pk' p'] & Hin' & Hgt' & ->).
    rewrite <- Hits in Hin'.
    apply elem_of_carrito_items_select_related in Hin' as (? & ? & ? & ?).
    simpl in *. subst pk'.
    eexists. split; [reflexivity|]. split; [done|].
    by exists k', it', p'.
  - exfalso. rewrite verificar_stock_None in Hver.
    specialize (Hver _ _ Hin). simpl in Hver. lia.
Qed.

Lemma procesar_pago_todo_o_nada_witness :
  ∃ r, procesar_pago 7 (Ejemplos.db_AB 3 10) = (r, Ejemplos.db_AB 3 10) ∧
    InsufficientStock r ∧
    ∃ k' it' p', items (Ejemplos.db_AB 3 10) !! k' = Some it' ∧ carrito_id it' = 1 ∧
      productos (Ejemplos.db_AB 3 10) !! producto_id it' = Some p' ∧
      cantidad it' > stock p' ∧
      r = inr (redirect a_ver_carrito
                 (error, NoHaySuficienteStockDisponible (nombre p') (stock p'))).
Proof.
  apply (procesar_pago_todo_o_nada (Ejemplos.db_AB 3 10) 7 (1, mkCarrito 7)
           2 (mkItemCarrito 1 2 10) Ejemplos.producto_B).
  - apply carrito_de_db_AB.
  - reflexivity.
  - reflexivity.
  - reflexivity.
  - simpl. lia.
Defined.

(** ** vaciar_carrito *)

(** [carrito.items.all().delete()] removes the items of that cart and no
    other row. *)
Lemma lookup_queryset_delete_carrito (its : gmap Z ItemCarrito) cid k :
  queryset_delete (λ it : Z * ItemCarrito, carrito_id it.2 = cid) its !! k =
  match its !! k with
  | Some it => if decide (carrito_id it = cid) then None else Some it
  | None => None
  end.
Proof.
  unfold queryset_delete. rewrite map_lookup_filter.
  destruct (its !! k) as [it|]; simpl; [|done].
  case_decide; by rewrite ?option_guard_True, ?option_guard_False by naive_solver.
Qed.

Lemma lookup_queryset_delete_carrito_Some (its : gmap Z ItemCarrito) cid k it :
  queryset_delete (λ it : Z * ItemCarrito, carrito_id it.2 = cid) its !! k = Some it ↔
  its !! k = Some it ∧ carrito_id it ≠ cid.
Proof.
  rewrite lookup_queryset_delete_carrito.
  destruct (its !! k) as [it'|]; [case_decide|].
  - split; [done|]. intros [[= ->] ?]. done.
  - split; [by intros [= ->]|]. by intros [[= ->] ?].
  - split; [done|]. by intros [? ?].
Qed.

(** The claim of C4 fails where the user owns no cart row: the view raises
    [Http404], nothing is created, and the user still has no cart. *)
Lemma vaciar_carrito_sin_carrito_404 :
  let db := mkDB ∅ ∅ ∅ in
  vaciar_carrito 7 db = (inl Http404, db) ∧
  ¬ exito (vaciar_carrito 7 db).1 ∧
  ¬ ∃ carrito, carrito_de (vaciar_carrito 7 db).2 7 carrito.
Proof.
  assert (Hrun : vaciar_carrito 7 (mkDB ∅ ∅ ∅) = (inl Http404, mkDB ∅ ∅ ∅))
    by (vm_compute; reflexivity).
  simpl. rewrite Hrun. split; [done|]. split; [intros []|].
  intros [carrito (Hc & _)]. simpl in Hc. by rewrite lookup_empty in Hc.
Qed.

(** C4, as the code has it.  For a user who owns a cart row, [vaciar_carrito]
    succeeds, removes exactly the items of that cart and leaves the cart row,
    every other cart, every other item and every product as they were (so a
    second call succeeds as well).  For a user who owns no cart row it raises
    [Http404] and changes nothing: no cart is created. *)
Theorem vaciar_carrito_spec db user :
  (∀ carrito, carrito_de db user carrito →
     ∃ db', vaciar_carrito user db =
              (inr (redirect a_ver_carrito (success, CarritoVaciado)), db') ∧
       (∀ k it, items db' !! k = Some it ↔
                items db !! k = Some it ∧ carrito_id it ≠ carrito.1) ∧
       carritos db' = carritos db ∧
       productos db' = productos db ∧
       carrito_de db' user carrito) ∧
  (sin_carrito db user → vaciar_carrito user db = (inl Http404, db)).
Proof.
  split.
  - intros carrito Hcar. eexists. split.
    + unfold vaciar_carrito, carrito_items_delete. desmonad.
      rewrite (Carrito_get_or_404_carrito_de _ _ _ Hcar). reflexivity.
    + simpl. split; [|done]. intros k it. apply lookup_queryset_delete_carrito_Some.
  - intros Hsin. unfold vaciar_carrito. desmonad.
    by rewrite (Carrito_get_or_404_sin_carrito _ _ Hsin).
Qed.

Lemma vaciar_carrito_spec_witness :
  (∃ db', vaciar_carrito 7 (Ejemplos.db_AB 3 10) =
            (inr (redirect a_ver_carrito (success, CarritoVaciado)), db') ∧
     (∀ k it, items db' !! k = Some it ↔
              items (Ejemplos.db_AB 3 10) !! k = Some it ∧ carrito_id it ≠ 1) ∧
     carritos db' = carritos (Ejemplos.db_AB 3 10) ∧
     productos db' = productos (Ejemplos.db_AB 3 10) ∧
     carrito_de db' 7 (1, mkCarrito 7)) ∧
  vaciar_carrito 8 (Ejemplos.db_AB 3 10) = (inl Http404, Ejemplos.db_AB 3 10).
Proof.
  split.
  - apply (proj1 (vaciar_carrito_spec (Ejemplos.db_AB 3 10) 7) (1, mkCarrito 7)).
    apply carrito_de_db_AB.
  - apply (proj2 (vaciar_carrito_spec (Ejemplos.db_AB 3 10) 8)).
    unfold sin_carrito. simpl. por_tabla.
Defined.

(** ** procesar_pago, the path that pays *)

(** The second loop always runs to its end, touches only the table of
    products, and writes one row per item: the item's copy of its product with
    the stock lowered by the item's quantity.  A product that no item of the
    list names keeps its row; when no two items name the same product, every
    row written is still there at the end. *)
Lemma actualizar_stock_spec its db :
  ∃ ps, actualizar_stock its db = (inr tt, set_productos ps db) ∧
    (∀ pk, pk ∉ its.*2.*1 → ps !! pk = productos db !! pk) ∧
    (NoDup its.*2.*1 →
     ∀ item producto, (item, producto) ∈ its →
       ps !! producto.1 =
         Some (set_stock (stock producto.2 - cantidad item.2) producto.2)) ∧
    (∀ Q : Z → Producto → Prop,
       map_Forall Q (productos db) →
       (∀ item producto, (item, producto) ∈ its →
          Q producto.1 (set_stock (stock producto.2 - cantidad item.2) producto.2)) →
       map_Forall Q ps).
Proof.
  revert db. induction its as [|[item producto] resto IH]; intros db.
  - exists (productos db). split; [by destruct db|].
    split; [done|]. split; [|done].
    intros _ ?? Hin. by apply elem_of_nil in Hin.
  - simpl. unfold Producto_save, instance_save. desmonad. simpl.
    destruct (IH (set_productos
                    (<[producto.1 := set_stock (stock producto.2 - cantidad item.2) producto.2]>
                       (productos db)) db))
      as (ps & Hrun & Hfuera & Hdentro & Hinv).
    exists ps. split; [by rewrite Hrun|]. simpl in *. split; [|split].
    + intros pk Hpk. apply not_elem_of_cons in Hpk as [Hne Hpk].
      rewrite (Hfuera _ Hpk). by rewrite lookup_insert_ne.
    + intros [Hhere Hnd]%NoDup_cons i p [[= -> ->]|Hin]%elem_of_cons.
      * rewrite (Hfuera _ Hhere). by rewrite lookup_insert_eq.
      * by apply Hdentro.
    + intros Q HQ Hall. apply Hinv.
      * apply map_Forall_insert_2; [|done]. apply Hall. left.
      * intros i p Hin. apply Hall. by right.
Qed.

(** The products of the cart lines, one per line, when no two lines of the
    cart name the same product. *)
Lemma NoDup_productos_de_carrito carrito db :
  (∀ k1 k2 it1 it2,
     items db !! k1 = Some it1 → items db !! k2 = Some it2 →
     carrito_id it1 = carrito.1 → carrito_id it2 = carrito.1 →
     producto_id it1 = producto_id it2 → k1 = k2) →
  NoDup (carrito_items_select_related carrito db).*2.*1.
Proof.
  intros Huniq. unfold carrito_items_select_related.
  pose proof (NoDup_objects_filter
                (λ it : Z * ItemCarrito, carrito_id it.2 = carrito.1) (items db)) as Hnd.
  assert (Hel : ∀ it, it ∈ objects_filter
                  (λ it : Z * ItemCarrito, carrito_id it.2 = carrito.1) (items db) →
                carrito_id it.2 = carrito.1 ∧ items db !! it.1 = Some it.2).
  { intros it. by rewrite elem_of_objects_filter. }
  induction (objects_filter _ (items db)) as [|it l IH]; simpl; [constructor|].
  apply NoDup_cons in Hnd as [Hit Hnd].
  assert (IH' := IH Hnd (λ x Hx, Hel x (list_elem_of_further _ _ _ Hx))).
  destruct (productos db !! producto_id it.2) as [p|] eqn:Hp; simpl; [|done].
  apply NoDup_cons. split; [|done]. simpl.
  intros Hin. apply list_elem_of_fmap in Hin as ([pk q] & Hpk & Hin).
  apply list_elem_of_fmap in Hin as ([it' pq] & Heq & Hin). simpl in *. subst.
  apply list_elem_of_omap in Hin as (it'' & Hin'' & Hsome).
  destruct (productos db !! producto_id it''.2) eqn:Hp''; simplify_eq/=.
  destruct (Hel it (list_elem_of_here _ _)) as [Hc1 Hk1].
  destruct (Hel it' (list_elem_of_further _ _ _ Hin'')) as [Hc2 Hk2].
  assert (it.1 = it'.1) as Hk by (eapply Huniq; eauto).
  apply Hit. destruct it as [k1 r1], it' as [k2 r2]. simpl in *. subst.
  by simplify_eq.
Qed.



(** Outside the data model, with two lines of one cart for the same product
    (3 and 2 units of A, stock 5), both lines pass the validation against the
    stock read with the queryset, and each save writes that stock minus its
    own line: the stock ends at 5 minus the line saved last, not at 0. *)
Example procesar_pago_lineas_repetidas :
  let db := mkDB {[ 1 := Ejemplos.producto_A ]} {[ 1 := mkCarrito 7 ]}
                 {[ 1 := mkItemCarrito 1 1 3; 2 := mkItemCarrito 1 1 2 ]} in
  (procesar_pago 7 db).1 = inr (redirect a_catalogo (success, PagoProcesado)) ∧
  stock <$> productos (procesar_pago 7 db).2 !! 1 = Some 2.
Proof. vm_compute. done. Qed.


(** ** Every write of a cart view is one of the effects *)

(** Unfolding of a view down to the ORM calls, and case analysis on the
    outcome of each query and test. *)
Ltac abre_vista :=
  unfold agregar_al_carrito, actualizar_carrito, eliminar_del_carrito,
    vaciar_carrito, procesar_pago,
    Producto_get_or_404, Carrito_get_or_create, Carrito_get_or_404, Carrito_get,
    Carrito_create, ItemCarrito_get, ItemCarrito_get_or_404, ItemCarrito_create,
    ItemCarrito_save, ItemCarrito_delete, item_producto, carrito_items_delete,
    Producto_save, objects_create, instance_save, instance_delete,
    get_object_or_404;
  desmonad.

Ltac reduce_vista :=
  cbv beta iota zeta;
  cbn [items carritos productos set_items set_carritos set_productos fst snd].

Ltac casos_vista :=
  repeat (reduce_vista;
          match goal with
          | |- context [decide ?P] => destruct (decide P); [try discriminate|]
          | |- context [objects_get ?P ?t] =>
              let H := fresh "Hget" in
              destruct (objects_get P t) as [[]|[??]] eqn:H
          | |- context [productos ?db !! ?k] =>
              let H := fresh "Hprod" in destruct (productos db !! k) eqn:H
          | |- context [int_param ?a ?b] =>
              let H := fresh "Hint" in destruct (int_param a b) eqn:H
          end);
  reduce_vista.

Lemma sin_carrito_DoesNotExist db user :
  objects_get (λ c : Z * Carrito, usuario c.2 = user) (carritos db) = inl DoesNotExist →
  sin_carrito db user.
Proof. intros H k c Hk. by apply (proj1 (objects_get_DoesNotExist _ _) H k c). Qed.

(** One effect, chosen by the shape of the database it produces, its side
    conditions read off the outcomes of the queries in the context. *)
Ltac un_efecto :=
  lazymatch goal with
  | |- efecto ?b (set_carritos (<[fresh _ := mkCarrito ?u]> _) ?b) =>
      apply (ef_crea_carrito b u); by apply sin_carrito_DoesNotExist
  | |- efecto ?b (set_items (<[fresh _ := mkItemCarrito ?c ?p 1]> _) ?b) =>
      apply (ef_crea_item b c p);
      match goal with
      | H : objects_get _ _ = inl DoesNotExist |- _ =>
          exact (proj1 (objects_get_DoesNotExist _ _) H)
      end
  | |- efecto ?b (set_items (<[?k := set_cantidad ?n ?it]> _) ?b) =>
      apply (ef_cambia_cantidad b k it n);
      [ match goal with
        | H : objects_get _ _ = inr (k, it) |- _ =>
            exact (proj1 (objects_get_inr _ _ _ H))
        end
      | lia ]
  | |- efecto ?b (set_items (delete ?k _) ?b) => apply (ef_borra_item b k)
  | |- efecto ?b (set_items (queryset_delete _ _) ?b) => apply ef_vacia_carrito
  end.

Ltac efectos_hoja :=
  lazymatch goal with
  | |- rtc efecto ?a ?a => apply rtc_refl
  | |- rtc efecto _ (set_items _ ?b) =>
      apply rtc_r with b; [efectos_hoja | un_efecto]
  | |- rtc efecto _ (set_carritos _ ?b) =>
      apply rtc_r with b; [efectos_hoja | un_efecto]
  end.

Lemma agregar_al_carrito_efectos user producto_id db :
  rtc efecto db (agregar_al_carrito user producto_id db).2.
Proof. abre_vista. casos_vista; efectos_hoja. Qed.

Lemma actualizar_carrito_efectos user item_id post db :
  rtc efecto db (actualizar_carrito user item_id post db).2.
Proof. abre_vista. casos_vista; efectos_hoja. Qed.

Lemma eliminar_del_carrito_efectos user item_id db :
  rtc efecto db (eliminar_del_carrito user item_id db).2.
Proof. abre_vista. casos_vista; efectos_hoja. Qed.

Lemma vaciar_carrito_efectos user db :
  rtc efecto db (vaciar_carrito user db).2.
Proof. abre_vista. casos_vista; efectos_hoja. Qed.

Lemma actualizar_stock_efectos its db :
  (∀ item producto, (item, producto) ∈ its → cantidad item.2 ≤ stock producto.2) →
  rtc efecto db (actualizar_stock its db).2 ∧ (actualizar_stock its db).1 = inr tt.
Proof.
  revert db. induction its as [|[item producto] resto IH]; intros db Hval.
  - split; [apply rtc_refl|done].
  - simpl. unfold Producto_save, instance_save. desmonad. reduce_vista.
    assert (Hresto : ∀ i p, (i, p) ∈ resto → cantidad i.2 ≤ stock p.2)
      by (intros i p Hin; apply Hval; by right).
    specialize (Hval item producto (list_elem_of_here _ _)).
    set (db1 := set_productos _ db).
    destruct (IH db1 Hresto) as [Hrtc Hret].
    destruct (actualizar_stock resto db1) as [r db2]. simpl in *. subst r.
    split; [|done]. eapply rtc_l; [|exact Hrtc].
    apply ef_guarda_producto. simpl. lia.
Qed.

(** [procesar_pago] writes a stock only on the path where the first loop has
    accepted every line of the user's cart. *)
Lemma procesar_pago_escribe_validado db user :
  (procesar_pago user db).2 ≠ db →
  ∃ carrito, carrito_de db user carrito ∧
    verificar_stock (carrito_items_select_related carrito db) = None.
Proof.
  unfold procesar_pago, Carrito_get_or_404, get_object_or_404. desmonad.
  destruct (objects_get _ (carritos db)) as [[]|carrito] eqn:Hget; try done.
  assert (Hcar : carrito_de db user carrito).
  { by apply (Carrito_get_inr db user carrito db); unfold Carrito_get; rewrite Hget. }
  reduce_vista.
  destruct (carrito_items_select_related carrito db) as [|x its] eqn:Hits; [done|].
  destruct (verificar_stock (x :: its)) as [r|] eqn:Hver; [done|].
  intros _. exists carrito. by rewrite Hits.
Qed.

Lemma procesar_pago_efectos user db :
  rtc efecto db (procesar_pago user db).2.
Proof.
  destruct (decide ((procesar_pago user db).2 = db)) as [->|Hne]; [apply rtc_refl|].
  destruct (procesar_pago_escribe_validado _ _ Hne) as (carrito & Hcar & Hver).
  unfold procesar_pago, carrito_items_delete. desmonad.
  rewrite (Carrito_get_or_404_carrito_de _ _ _ Hcar). reduce_vista.
  rewrite verificar_stock_None in Hver.
  destruct (actualizar_stock_efectos _ db Hver) as [Hrtc Hret].
  destruct (carrito_items_select_related carrito db) as [|x its]; [apply rtc_refl|].
  rewrite (proj2 (verificar_stock_None (x :: its)) Hver).
  destruct (actualizar_stock (x :: its) db) as [r db1]. simpl in *. subst r.
  eapply rtc_r; [exact Hrtc|]. apply ef_vacia_carrito.
Qed.

Lemma ejecutar_efectos op db : rtc efecto db (paso db op).
Proof.
  unfold paso. destruct op; simpl;
    auto using agregar_al_carrito_efectos, actualizar_carrito_efectos,
      eliminar_del_carrito_efectos, vaciar_carrito_efectos, procesar_pago_efectos.
Qed.

(** An invariant of the effects is an invariant of every history. *)
Lemma invariante_historia (I : DB → Prop) :
  (∀ db db', efecto db db' → I db → I db') →
  ∀ ops db, I db → I (historia db ops).
Proof.
  intros Hpres ops. induction ops as [|op ops IH]; intros db HI; [done|].
  simpl. apply IH. pose proof (ejecutar_efectos op db) as Hrtc.
  induction Hrtc; eauto.
Qed.

(** ** The invariants are preserved by every effect *)

Lemma efecto_stock_no_negativo db db' :
  efecto db db' → stock_no_negativo db → stock_no_negativo db'.
Proof.
  unfold stock_no_negativo. intros [] Hinv; simpl; try done.
  intros pk' p' [[-> <-]|[_ Hp]]%lookup_insert_Some; [done|by eapply Hinv].
Qed.

Lemma efecto_cantidades_positivas db db' :
  efecto db db' → cantidades_positivas db → cantidades_positivas db'.
Proof.
  unfold cantidades_positivas. intros [] Hinv; simpl; try done.
  - intros k' it' [[_ <-]|[_ Hk]]%lookup_insert_Some; [done|by eapply Hinv].
  - intros k' it' [[_ <-]|[_ Hk]]%lookup_insert_Some; [|by eapply Hinv].
    simpl. eauto.
  - intros k' it' [_ Hk]%lookup_delete_Some. by eapply Hinv.
  - intros k' it' [Hk _]%lookup_queryset_delete_carrito_Some. by eapply Hinv.
Qed.



(** ** actualizar_carrito, manual update of the quantity *)

(** C5. For an item that belongs to a cart of the calling user and whose
    product has a non-negative stock, [actualizar_carrito] with an action that
    is neither "increase" nor "decrease" (the form posts "update") and the
    integer [n] as quantity: deletes the item and reports success when
    [n ≤ 0], zero and negative alike; answers with the insufficient-stock
    warning and leaves the database as it was when [n] exceeds the stock; and
    otherwise overwrites the quantity of that item with exactly [n], every
    other row being untouched. *)
Theorem actualizar_carrito_update db user item_id it p post n :
  items db !! item_id = Some it →
  usuario <$> carritos db !! carrito_id it = Some user →
  productos db !! producto_id it = Some p →
  0 ≤ stock p →
  action post ≠ Some "increase"%string →
  action post ≠ Some "decrease"%string →
  cantidad_post post = Entero n →
  (n ≤ 0 →
   actualizar_carrito user item_id post db =
     (inr (redirect a_ver_carrito (success, EliminadoDelCarrito (nombre p))),
      set_items (delete item_id (items db)) db)) ∧
  (n > stock p →
   InsufficientStock (actualizar_carrito user item_id post db).1 ∧
   (actualizar_carrito user item_id post db).2 = db) ∧
  (0 < n ≤ stock p →
   actualizar_carrito user item_id post db =
     (inr (redirect a_ver_carrito (success, CantidadActualizada (nombre p))),
      set_items (<[item_id := set_cantidad n it]> (items db)) db)).
Proof.
  intros Hit Hown Hp Hstock Hinc Hdec Hn.
  assert (Hrun : actualizar_carrito user item_id post db =
    if decide (n ≤ 0) then
      (inr (redirect a_ver_carrito (success, EliminadoDelCarrito (nombre p))),
       set_items (delete item_id (items db)) db)
    else if decide (n > stock p) then
      (inr (redirect a_ver_carrito
              (warning, NoHaySuficienteStockDisponible (nombre p) (stock p))), db)
    else
      (inr (redirect a_ver_carrito (success, CantidadActualizada (nombre p))),
       set_items (<[item_id := set_cantidad n it]> (items db)) db)).
  { unfold actualizar_carrito. desmonad.
    rewrite (ItemCarrito_get_or_404_propio _ _ _ _ Hit Hown).
    destruct (decide (action post = Some "increase"%string)); [done|].
    destruct (decide (action post = Some "decrease"%string)); [done|].
    rewrite Hn. cbn [int_param].
    unfold ItemCarrito_delete, ItemCarrito_save, item_producto, instance_delete,
      instance_save. desmonad.
    destruct (decide (n ≤ 0)); reduce_vista; rewrite Hp; [done|].
    reduce_vista. by destruct (decide (n > stock p)). }
  rewrite Hrun. repeat split.
  - intros ?. by rewrite decide_True.
  - rewrite decide_False, decide_True by lia. done.
  - rewrite decide_False, decide_True by lia. done.
  - intros ?. by rewrite !decide_False by lia.
Qed.

Lemma actualizar_carrito_update_witness :
  let db := Ejemplos.db_AB 2 1 in
  let post n := mkPOST (Some "update"%string) (Entero n) in
  actualizar_carrito 7 1 (post (-5)) db =
    (inr (redirect a_ver_carrito (success, EliminadoDelCarrito "A")),
     set_items (delete 1 (items db)) db) ∧
  actualizar_carrito 7 1 (post 0) db =
    (inr (redirect a_ver_carrito (success, EliminadoDelCarrito "A")),
     set_items (delete 1 (items db)) db) ∧
  (InsufficientStock (actualizar_carrito 7 1 (post 6) db).1 ∧
   (actualizar_carrito 7 1 (post 6) db).2 = db) ∧
  actualizar_carrito 7 1 (post 5) db =
    (inr (redirect a_ver_carrito (success, CantidadActualizada "A")),
     set_items (<[1 := mkItemCarrito 1 1 5]> (items db)) db).
Proof.
  intros db post.
  assert (H : ∀ n,
    (n ≤ 0 → actualizar_carrito 7 1 (post n) db =
       (inr (redirect a_ver_carrito (success, EliminadoDelCarrito "A")),
        set_items (delete 1 (items db)) db)) ∧
    (n > 5 → InsufficientStock (actualizar_carrito 7 1 (post n) db).1 ∧
       (actualizar_carrito 7 1 (post n) db).2 = db) ∧
    (0 < n ≤ 5 → actualizar_carrito 7 1 (post n) db =
       (inr (redirect a_ver_carrito (success, CantidadActualizada "A")),
        set_items (<[1 := mkItemCarrito 1 1 n]> (items db)) db))).
  { intros n.
    apply (actualizar_carrito_update db 7 1 (mkItemCarrito 1 1 2)
             Ejemplos.producto_A (post n) n);
      first [reflexivity | discriminate | simpl; lia]. }
  split; [apply (proj1 (H (-5))); lia|].
  split; [apply (proj1 (H 0)); lia|].
  split; [apply (proj1 (proj2 (H 6))); lia|].
  apply (proj2 (proj2 (H 5))); lia.
Defined.

(** ** agregar_al_carrito *)

(** The branch for a product that is already in the cart validates the new
    quantity against the stock: one unit more than the stock is refused and
    nothing is written; otherwise the quantity of the existing row grows by
    one. *)
Lemma agregar_al_carrito_existente db user carrito pk p k it :
  carrito_de db user carrito →
  productos db !! pk = Some p →
  items db !! k = Some it →
  carrito_id it = carrito.1 → producto_id it = pk →
  (∀ k' it', items db !! k' = Some it' →
     carrito_id it' = carrito.1 → producto_id it' = pk → k' = k) →
  (cantidad it + 1 > stock p →
   agregar_al_carrito user pk db =
     (inr (redirect a_ver_carrito (warning, NoHaySuficienteStock (nombre p))), db)) ∧
  (cantidad it + 1 ≤ stock p →
   agregar_al_carrito user pk db =
     (inr (redirect a_ver_carrito (success, AnadidaOtraUnidad (nombre p))),
      set_items (<[k := set_cantidad (cantidad it + 1) it]> (items db)) db)).
Proof.
  intros Hcar Hp Hit Hc Hpk Huniq.
  assert (Hcar' : ∀ its, carrito_de (set_items its db) user carrito) by done.
  split; intros Hn.
  - unfold agregar_al_carrito, Carrito_get_or_create. desmonad.
    rewrite (Producto_get_or_404_Some _ _ _ Hp).
    rewrite (Carrito_get_carrito_de _ _ _ Hcar). reduce_vista.
    rewrite (ItemCarrito_get_unico db carrito (pk, p) k it) by done.
    reduce_vista. rewrite decide_False by lia.
    by rewrite (Carrito_get_carrito_de _ _ _ Hcar).
  - unfold agregar_al_carrito, Carrito_get_or_create. desmonad.
    rewrite (Producto_get_or_404_Some _ _ _ Hp).
    rewrite (Carrito_get_carrito_de _ _ _ Hcar). reduce_vista.
    rewrite (ItemCarrito_get_unico db carrito (pk, p) k it) by done.
    reduce_vista. rewrite decide_True by lia.
    unfold ItemCarrito_save, instance_save. desmonad. reduce_vista.
    by rewrite (Carrito_get_carrito_de _ _ _ (Hcar' _)).
Qed.

(** The branch for a product that is not yet in the cart creates the line
    with quantity 1 whatever the stock of the product is. *)
Lemma agregar_al_carrito_nuevo db user carrito pk p :
  carrito_de db user carrito →
  productos db !! pk = Some p →
  (∀ k it, items db !! k = Some it →
     ¬ (carrito_id it = carrito.1 ∧ producto_id it = pk)) →
  agregar_al_carrito user pk db =
    (inr (redirect a_ver_carrito (success, AnadidoAlCarrito (nombre p))),
     set_items
       (<[fresh (dom (items db)) := mkItemCarrito carrito.1 pk 1]> (items db)) db).
Proof.
  intros Hcar Hp Hno.
  assert (Hcar' : ∀ its, carrito_de (set_items its db) user carrito) by done.
  unfold agregar_al_carrito, Carrito_get_or_create. desmonad.
  rewrite (Producto_get_or_404_Some _ _ _ Hp).
  rewrite (Carrito_get_carrito_de _ _ _ Hcar). reduce_vista.
  unfold ItemCarrito_get. reduce_vista.
  rewrite (proj2 (objects_get_DoesNotExist _ (items db))) by exact Hno.
  rewrite decide_True by done.
  unfold ItemCarrito_create, objects_create. reduce_vista.
  by rewrite (Carrito_get_carrito_de _ _ _ (Hcar' _)).
Qed.

(** C2 fails on the branch for a product that is not yet in the cart: that
    branch creates the item with quantity 1 without looking at the stock.
    Product 3 has stock 0 and user 7 has nothing in any cart; the view
    reports success and leaves an item of quantity 1 for product 3. *)
Lemma agregar_al_carrito_agotado_crea_item :
  let db := Ejemplos.db_inicial in
  let r := agregar_al_carrito 7 3 db in
  stock <$> productos db !! 3 = Some 0 ∧
  items db = ∅ ∧
  r.1 = inr (redirect a_ver_carrito (success, AnadidoAlCarrito "C")) ∧
  ¬ InsufficientStock r.1 ∧
  map_to_list (items r.2) = [(0, mkItemCarrito 0 3 1)].
Proof.
  assert (Hrun : (agregar_al_carrito 7 3 Ejemplos.db_inicial).1 =
                 inr (redirect a_ver_carrito (success, AnadidoAlCarrito "C")))
    by (vm_compute; reflexivity).
  simpl. rewrite Hrun. repeat split; try (vm_compute; reflexivity).
  intros [].
Qed.

(** ** Invariants of the histories *)

(** C6. From a database whose stocks are all non-negative, after any sequence
    of requests to the cart views every stock is still non-negative, and so
    it is after one more [procesar_pago]; and that [procesar_pago] changes
    the table of products only when the user has a cart every line of which
    asks for no more than the stock its product has at that moment. *)
Theorem no_oversell db0 ops :
  stock_no_negativo db0 →
  let db := historia db0 ops in
  stock_no_negativo db ∧
  ∀ user,
    stock_no_negativo (paso db (Pagar user)) ∧
    (productos (paso db (Pagar user)) ≠ productos db →
     ∃ carrito, carrito_de db user carrito ∧
       ∀ k it p, items db !! k = Some it → carrito_id it = carrito.1 →
         productos db !! producto_id it = Some p → cantidad it ≤ stock p).
Proof.
  intros H0 db.
  assert (Hdb : stock_no_negativo db)
    by (apply invariante_historia; [apply efecto_stock_no_negativo|done]).
  split; [done|]. intros user. split.
  - apply (invariante_historia _ efecto_stock_no_negativo [Pagar user] db Hdb).
  - intros Hne.
    destruct (procesar_pago_escribe_validado db user) as (carrito & Hcar & Hver).
    { intros Heq. apply Hne. unfold paso. simpl. by rewrite Heq. }
    exists carrito. split; [done|]. intros k it p Hk Hc Hp.
    rewrite verificar_stock_None in Hver.
    apply (Hver (k, it) (producto_id it, p)).
    by apply elem_of_carrito_items_select_related.
Qed.

(** A quantity that would fall to zero or below removes the row: "decrease"
    on a quantity of 1 or less, and a manual update to a number that is not
    positive. *)
Lemma actualizar_carrito_borra db user k it post :
  items db !! k = Some it →
  usuario <$> carritos db !! carrito_id it = Some user →
  (action post = Some "decrease"%string ∧ cantidad it - 1 ≤ 0) ∨
  (action post ≠ Some "increase"%string ∧ action post ≠ Some "decrease"%string ∧
   ∃ n, cantidad_post post = Entero n ∧ n ≤ 0) →
  items (actualizar_carrito user k post db).2 = delete k (items db).
Proof.
  intros Hit Hown Hcaso. unfold actualizar_carrito. desmonad.
  rewrite (ItemCarrito_get_or_404_propio _ _ _ _ Hit Hown).
  unfold ItemCarrito_delete, ItemCarrito_save, item_producto, instance_delete,
    instance_save. desmonad.
  destruct Hcaso as [[Ha Hq]|(Hinc & Hdec & n & Hn & Hle)].
  - rewrite Ha. rewrite decide_False by done. rewrite decide_True by done.
    reduce_vista. rewrite decide_False by lia. reduce_vista.
    by destruct (productos db !! producto_id it).
  - rewrite decide_False by done. rewrite decide_False by done.
    rewrite Hn. cbn [int_param]. rewrite decide_True by done. reduce_vista.
    by destruct (productos db !! producto_id it).
Qed.

(** C7. From a database in which every item has a quantity of at least 1 (a
    database without items is one), after any sequence of add, increase,
    decrease, set-quantity, remove, clear and checkout requests every item
    that exists has a quantity of at least 1; and in the database so reached,
    a request that would take the quantity of the user's item to zero or
    below ("decrease" on a quantity of 1, a manual update to a number that is
    not positive) removes the item. *)
Theorem cantidad_siempre_positiva db0 ops :
  cantidades_positivas db0 →
  let db := historia db0 ops in
  cantidades_positivas db ∧
  ∀ user k it post,
    items db !! k = Some it →
    usuario <$> carritos db !! carrito_id it = Some user →
    (action post = Some "decrease"%string ∧ cantidad it - 1 ≤ 0) ∨
    (action post ≠ Some "increase"%string ∧ action post ≠ Some "decrease"%string ∧
     ∃ n, cantidad_post post = Entero n ∧ n ≤ 0) →
    items (paso db (Actualizar user k post)) = delete k (items db).
Proof.
  intros H0 db. split.
  - by apply invariante_historia; [apply efecto_cantidades_positivas|].
  - intros user k it post. apply actualizar_carrito_borra.
Qed.






(** ** The invariants on a concrete history *)

Lemma stock_no_negativo_db_inicial : stock_no_negativo Ejemplos.db_inicial.
Proof. unfold stock_no_negativo. simpl. por_tabla. Defined.

Lemma no_oversell_witness :
  let db := historia Ejemplos.db_inicial Ejemplos.compra in
  stock_no_negativo db ∧
  ∀ user,
    stock_no_negativo (paso db (Pagar user)) ∧
    (productos (paso db (Pagar user)) ≠ productos db →
     ∃ carrito, carrito_de db user carrito ∧
       ∀ k it p, items db !! k = Some it → carrito_id it = carrito.1 →
         productos db !! producto_id it = Some p → cantidad it ≤ stock p).
Proof.
  apply (no_oversell Ejemplos.db_inicial Ejemplos.compra).
  apply stock_no_negativo_db_inicial.
Defined.

Lemma cantidad_siempre_positiva_witness :
  let db := historia Ejemplos.db_inicial Ejemplos.compra in
  cantidades_positivas db ∧
  ∀ user k it post,
    items db !! k = Some it →
    usuario <$> carritos db !! carrito_id it = Some user →
    (action post = Some "decrease"%string ∧ cantidad it - 1 ≤ 0) ∨
    (action post ≠ Some "increase"%string ∧ action post ≠ Some "decrease"%string ∧
     ∃ n, cantidad_post post = Entero n ∧ n ≤ 0) →
    items (paso db (Actualizar user k post)) = delete k (items db).
Proof.
  apply (cantidad_siempre_positiva Ejemplos.db_inicial Ejemplos.compra).
  unfold cantidades_positivas. simpl. por_tabla.
Defined.


(** Adding a product twice makes one line of two units. *)
Example agregar_dos_veces :
  map_to_list (items (peticiones Ejemplos.db_inicial
                        [VerCarrito 7; Operar (Agregar 7 1); Operar (Agregar 7 1)]))
  = [(0, mkItemCarrito 0 1 2)].
Proof. vm_compute. done. Qed.

(** What that history does: two users fill their carts, one of them pays. *)
Example historia_compra :
  let db := historia Ejemplos.db_inicial Ejemplos.compra in
  stock <$> productos db !! 1 = Some 3 ∧
  stock <$> productos db !! 2 = Some 2 ∧
  map_to_list (usuario <$> carritos db) = [(1, 8); (0, 7)] ∧
  map_to_list (items db) = [(2, mkItemCarrito 1 2 1)].
Proof. vm_compute. done. Qed.

(** ** The public listing *)

Lemma Forall_filtrado {A} (P Q : A → Prop) `{!∀ x, Decision (Q x)} (l : list A) :
  Forall P l → Forall P (filter Q l).
Proof.
  rewrite !Forall_forall. intros Hl x [_ Hx]%list_elem_of_filter. by apply Hl.
Qed.

Lemma num_pages_pos count : 1 ≤ num_pages count.
Proof.
  unfold num_pages, per_page.
  apply (Z.div_le_lower_bound (Z.max 1 count + 12 - 1) 12 1); lia.
Qed.

Lemma paginator_page_Forall {A} (P : A → Prop) (l l' : list A) number :
  paginator_page l number = inr l' → Forall P l → Forall P l'.
Proof.
  unfold paginator_page, slice.
  destruct (validate_number _ number) as [e|n]; [done|].
  intros [= <-] Hl. by apply Forall_take, Forall_drop.
Qed.

(** Page 1 and the last page always exist. *)
Lemma paginator_page_primera {A} (l : list A) :
  ∃ l', paginator_page l (Entero 1) = inr l'.
Proof.
  unfold paginator_page, validate_number. cbn [int_param].
  pose proof (num_pages_pos (Z.of_nat (length l))).
  rewrite decide_False by lia. rewrite decide_False by lia. eauto.
Qed.

Lemma paginator_page_ultima {A} (l : list A) :
  ∃ l', paginator_page l (Entero (num_pages (Z.of_nat (length l)))) = inr l'.
Proof.
  unfold paginator_page, validate_number. cbn [int_param].
  pose proof (num_pages_pos (Z.of_nat (length l))).
  rewrite decide_False by lia. rewrite decide_False by lia. eauto.
Qed.

(** A page number is refused only with one of the two exceptions the view
    handles. *)
Lemma paginator_page_inl {A} (l : list A) number e :
  paginator_page l number = inl e → e = PageNotAnInteger ∨ e = EmptyPage.
Proof.
  unfold paginator_page, validate_number.
  destruct (int_param number 1) as [n|]; [|intros [= <-]; by left].
  repeat case_decide; intros [= <-]; by right.
Qed.

(** The view's [try ... except PageNotAnInteger ... except EmptyPage ...]
    always yields a page, and that page is part of the list. *)
Lemma pagina_del_catalogo {A} (P : A → Prop) (l : list A) number db :
  Forall P l →
  ∃ l', try_except_2 (lift (paginator_page l number))
          PageNotAnInteger (lift (paginator_page l (Entero 1)))
          EmptyPage (lift (paginator_page l
                             (Entero (num_pages (Z.of_nat (length l)))))) db
        = (inr l', db) ∧ Forall P l'.
Proof.
  intros Hl. unfold try_except_2, lift.
  destruct (paginator_page l number) as [e|l'] eqn:Hpage.
  - destruct (paginator_page_inl _ _ _ Hpage) as [-> | ->].
    + rewrite decide_True by done.
      destruct (paginator_page_primera l) as [l' Hl']. rewrite Hl'.
      exists l'. split; [done|]. by eapply paginator_page_Forall.
    + rewrite decide_False by done. rewrite decide_True by done.
      destruct (paginator_page_ultima l) as [l' Hl']. rewrite Hl'.
      exists l'. split; [done|]. by eapply paginator_page_Forall.
  - exists l'. split; [done|]. by eapply paginator_page_Forall.
Qed.

Lemma en_stock_filtrados db :
  Forall (en_stock db)
    (order_by_creado_desc
       (objects_filter (λ p : Z * Producto, stock p.2 > 0) (productos db))).
Proof.
  unfold order_by_creado_desc. rewrite merge_sort_Permutation.
  apply Forall_forall. intros x [Hs Hx]%elem_of_objects_filter.
  split; [done|lia].
Qed.

(** C10. The listing only shows products in stock.  [catalogo] writes
    nothing; it answers whenever the category parameter, if present, is a
    number; and every product on the page it hands to the template is a row
    of the table whose stock is at least 1, so a product whose stock is 0 is
    on no page.  Such a product is still served by [producto_detalle], and
    [agregar_al_carrito] does not answer 404 for it. *)
Theorem catalogo_solo_con_stock get db :
  (catalogo get db).2 = db ∧
  (categoria_get get ≠ NoEntero → ∃ ctx, (catalogo get db).1 = inr ctx) ∧
  (∀ ctx, (catalogo get db).1 = inr ctx →
     ∀ x, x ∈ ctx_productos ctx → productos db !! x.1 = Some x.2 ∧ 1 ≤ stock x.2) ∧
  (∀ pk p, productos db !! pk = Some p → stock p = 0 →
     (∀ ctx, (catalogo get db).1 = inr ctx → (pk, p) ∉ ctx_productos ctx) ∧
     producto_detalle pk db = (inr (pk, p), db) ∧
     ∀ user, (agregar_al_carrito user pk db).1 ≠ inl Http404).
Proof.
  pose proof (en_stock_filtrados db) as Hbase.
  set (l0 := order_by_creado_desc _) in Hbase.
  assert (Hcat : (categoria_get get = NoEntero ∧ catalogo get db = (inl ValueError, db)) ∨
                 ∃ ctx, catalogo get db = (inr ctx, db) ∧
                        Forall (en_stock db) (ctx_productos ctx)).
  { unfold catalogo. desmonad. fold l0.
    destruct (categoria_get get) as [| |c]; reduce_vista; [right|by left|right].
    all: match goal with
         | |- context [try_except_2 (lift (paginator_page ?L ?n)) _ _ _ _ ?d] =>
             assert (HL : Forall (en_stock d) L);
             [ destruct (q_get get) as [[|]|]; repeat apply Forall_filtrado; exact Hbase
             | destruct (pagina_del_catalogo (en_stock d) L n d HL)
                 as (l' & Hrun & Hl');
               rewrite Hrun; eexists; split; [reflexivity|done] ]
         end. }
  split; [|split; [|split]].
  - destruct Hcat as [[_ ->]|(ctx & -> & _)]; done.
  - intros Hno. destruct Hcat as [[? _]|(ctx & -> & _)]; [done|eauto].
  - intros ctx Hctx x Hx. destruct Hcat as [[_ Hrun]|(ctx' & Hrun & Hall)];
      rewrite Hrun in Hctx; simplify_eq/=.
    rewrite Forall_forall in Hall. by apply Hall.
  - intros pk p Hp H0. split; [|split].
    + intros ctx Hctx Hin. destruct Hcat as [[_ Hrun]|(ctx' & Hrun & Hall)];
        rewrite Hrun in Hctx; simplify_eq/=.
      rewrite Forall_forall in Hall. destruct (Hall _ Hin) as [_ Hge]. simpl in Hge. lia.
    + unfold producto_detalle. desmonad.
      by rewrite (Producto_get_or_404_Some _ _ _ Hp).
    + intros user. unfold agregar_al_carrito. desmonad.
      rewrite (Producto_get_or_404_Some _ _ _ Hp).
      abre_vista. casos_vista; try done;
        match goal with
        | H : objects_get _ _ = inl Http404 |- _ =>
            by apply objects_get_not_Http404 in H
        end.
Qed.

Lemma catalogo_solo_con_stock_witness :
  let get := mkGET (Entero 1) (Some "b"%string) (Entero 7) in
  let db := Ejemplos.db_inicial in
  let ctx := mkContexto [(2, Ejemplos.producto_B)] "b" in
  (catalogo get db).1 = inr ctx ∧
  (∃ ctx', (catalogo get db).1 = inr ctx') ∧
  (∀ x, x ∈ ctx_productos ctx → productos db !! x.1 = Some x.2 ∧ 1 ≤ stock x.2) ∧
  ((3, Ejemplos.producto_agotado) ∉ ctx_productos ctx) ∧
  producto_detalle 3 db = (inr (3, Ejemplos.producto_agotado), db) ∧
  ∀ user, (agregar_al_carrito user 3 db).1 ≠ inl Http404.
Proof.
  intros get db ctx.
  destruct (catalogo_solo_con_stock get db) as (_ & Hresp & Hpag & Hagotado).
  assert (Hctx : (catalogo get db).1 = inr ctx) by (vm_compute; reflexivity).
  destruct (Hagotado 3 Ejemplos.producto_agotado eq_refl eq_refl)
    as (Hfuera & Hdetalle & Hagregar).
  split; [exact Hctx|].
  split; [apply Hresp; discriminate|].
  split; [exact (Hpag ctx Hctx)|].
  split; [exact (Hfuera ctx Hctx)|].
  split; [exact Hdetalle|exact Hagregar].
Defined.

(** * Further properties of the views *)

(** ** Requests that name a row that is not there, or not the user's *)

Lemma Producto_get_or_404_None db pk :
  productos db !! pk = None → Producto_get_or_404 pk db = (inl Http404, db).
Proof.
  intros Hp. unfold Producto_get_or_404. f_equal.
  apply get_object_or_404_Http404. intros k p Hk Heq. simpl in Heq. congruence.
Qed.

Lemma ItemCarrito_get_or_404_ajeno db user k :
  (∀ it, items db !! k = Some it → propietario db (carrito_id it) ≠ Some user) →
  ItemCarrito_get_or_404 k user db = (inl Http404, db).
Proof.
  intros Hajeno. unfold ItemCarrito_get_or_404. f_equal.
  apply get_object_or_404_Http404. intros k' it Hk' [Hk Hown]. simpl in *. subst k'.
  by apply (Hajeno it).
Qed.

(** X1. [agregar_al_carrito] for a key that is no product answers 404 before it
    looks for the cart: nothing is written, not even the user's cart. *)
Theorem agregar_al_carrito_producto_inexistente db user pk :
  productos db !! pk = None →
  agregar_al_carrito user pk db = (inl Http404, db).
Proof.
  intros Hp. unfold agregar_al_carrito. desmonad.
  by rewrite (Producto_get_or_404_None _ _ Hp).
Qed.

Lemma agregar_al_carrito_producto_inexistente_witness :
  agregar_al_carrito 7 99 Ejemplos.db_inicial = (inl Http404, Ejemplos.db_inicial).
Proof. apply agregar_al_carrito_producto_inexistente. reflexivity. Defined.

(** X2. An item key that does not exist, or whose cart is not the caller's, is
    answered with 404 by [actualizar_carrito], whatever the form says, and by
    [eliminar_del_carrito]; the item and everything else stay as they
    were. *)
Theorem item_ajeno_404 db user k :
  (∀ it, items db !! k = Some it → propietario db (carrito_id it) ≠ Some user) →
  (∀ post, actualizar_carrito user k post db = (inl Http404, db)) ∧
  eliminar_del_carrito user k db = (inl Http404, db).
Proof.
  intros Hajeno. split; [intros post|].
  - unfold actualizar_carrito. desmonad.
    by rewrite (ItemCarrito_get_or_404_ajeno _ _ _ Hajeno).
  - unfold eliminar_del_carrito. desmonad.
    by rewrite (ItemCarrito_get_or_404_ajeno _ _ _ Hajeno).
Qed.

Lemma item_ajeno_404_witness :
  (∀ post, actualizar_carrito 8 1 post (Ejemplos.db_AB 3 1) =
             (inl Http404, Ejemplos.db_AB 3 1)) ∧
  eliminar_del_carrito 8 1 (Ejemplos.db_AB 3 1) = (inl Http404, Ejemplos.db_AB 3 1).
Proof.
  apply item_ajeno_404. intros it Hit.
  assert (it = mkItemCarrito 1 1 3) as -> by (vm_compute in Hit; congruence).
  vm_compute. discriminate.
Defined.

(** X3. [procesar_pago] for a user who owns no cart answers 404 and writes
    nothing. *)
Theorem procesar_pago_sin_carrito db user :
  sin_carrito db user → procesar_pago user db = (inl Http404, db).
Proof.
  intros Hsin. unfold procesar_pago. desmonad.
  by rewrite (Carrito_get_or_404_sin_carrito _ _ Hsin).
Qed.

Lemma procesar_pago_sin_carrito_witness :
  procesar_pago 8 (Ejemplos.db_AB 3 1) = (inl Http404, Ejemplos.db_AB 3 1).
Proof.
  apply procesar_pago_sin_carrito. unfold sin_carrito. simpl. por_tabla.
Defined.

(** ** actualizar_carrito: the buttons *)

Lemma actualizar_carrito_increase_cabe db user k it p post :
  items db !! k = Some it →
  propietario db (carrito_id it) = Some user →
  productos db !! producto_id it = Some p →
  action post = Some "increase"%string →
  cantidad it < stock p →
  actualizar_carrito user k post db =
    (inr (redirect a_ver_carrito (success, CantidadIncrementada (nombre p))),
     set_items (<[k := set_cantidad (cantidad it + 1) it]> (items db)) db).
Proof.
  intros Hit Hown Hp Ha Hc. unfold actualizar_carrito. desmonad.
  rewrite (ItemCarrito_get_or_404_propio _ _ _ _ Hit Hown).
  rewrite decide_True by done.
  unfold item_producto, ItemCarrito_save, instance_save. desmonad.
  reduce_vista. rewrite Hp. reduce_vista. by rewrite decide_True by lia.
Qed.

(** X4. "increase" on the caller's item adds one unit while the quantity is below
    the stock of the product, and otherwise warns with the stock available
    and writes nothing. *)
Theorem actualizar_carrito_increase db user k it p post :
  items db !! k = Some it →
  propietario db (carrito_id it) = Some user →
  productos db !! producto_id it = Some p →
  action post = Some "increase"%string →
  (cantidad it < stock p →
   actualizar_carrito user k post db =
     (inr (redirect a_ver_carrito (success, CantidadIncrementada (nombre p))),
      set_items (<[k := set_cantidad (cantidad it + 1) it]> (items db)) db)) ∧
  (stock p ≤ cantidad it →
   actualizar_carrito user k post db =
     (inr (redirect a_ver_carrito
             (warning, NoHaySuficienteStockDisponible (nombre p) (stock p))), db)).
Proof.
  intros Hit Hown Hp Ha. split; intros Hc.
  - by apply actualizar_carrito_increase_cabe.
  - unfold actualizar_carrito. desmonad.
    rewrite (ItemCarrito_get_or_404_propio _ _ _ _ Hit Hown).
    rewrite decide_True by done.
    unfold item_producto. desmonad.
    reduce_vista. rewrite Hp. reduce_vista. by rewrite decide_False by lia.
Qed.

Lemma actualizar_carrito_increase_witness :
  let post := mkPOST (Some "increase"%string) Ausente in
  actualizar_carrito 7 1 post (Ejemplos.db_AB 3 1) =
    (inr (redirect a_ver_carrito (success, CantidadIncrementada "A")),
     set_items (<[1 := mkItemCarrito 1 1 4]> (items (Ejemplos.db_AB 3 1)))
       (Ejemplos.db_AB 3 1)) ∧
  actualizar_carrito 7 1 post (Ejemplos.db_AB 5 1) =
    (inr (redirect a_ver_carrito (warning, NoHaySuficienteStockDisponible "A" 5)),
     Ejemplos.db_AB 5 1).
Proof.
  intros post. split.
  - apply (proj1 (actualizar_carrito_increase (Ejemplos.db_AB 3 1) 7 1
                    (mkItemCarrito 1 1 3) Ejemplos.producto_A post
                    eq_refl eq_refl eq_refl eq_refl)).
    simpl. lia.
  - apply (proj2 (actualizar_carrito_increase (Ejemplos.db_AB 5 1) 7 1
                    (mkItemCarrito 1 1 5) Ejemplos.producto_A post
                    eq_refl eq_refl eq_refl eq_refl)).
    simpl. lia.
Defined.

Lemma actualizar_carrito_decrease_quita db user k it p post :
  items db !! k = Some it →
  propietario db (carrito_id it) = Some user →
  productos db !! producto_id it = Some p →
  action post = Some "decrease"%string →
  cantidad it > 1 →
  actualizar_carrito user k post db =
    (inr (redirect a_ver_carrito (success, CantidadReducida (nombre p))),
     set_items (<[k := set_cantidad (cantidad it - 1) it]> (items db)) db).
Proof.
  intros Hit Hown Hp Ha Hc. unfold actualizar_carrito. desmonad.
  rewrite (ItemCarrito_get_or_404_propio _ _ _ _ Hit Hown).
  rewrite Ha. rewrite decide_False by done. rewrite decide_True by done.
  unfold item_producto, ItemCarrito_save, instance_save. desmonad. reduce_vista.
  rewrite decide_True by lia. reduce_vista. by rewrite Hp.
Qed.

(** X5. "decrease" on the caller's item takes one unit off while the quantity is
    above 1, and removes the item otherwise. *)
Theorem actualizar_carrito_decrease db user k it p post :
  items db !! k = Some it →
  propietario db (carrito_id it) = Some user →
  productos db !! producto_id it = Some p →
  action post = Some "decrease"%string →
  (cantidad it > 1 →
   actualizar_carrito user k post db =
     (inr (redirect a_ver_carrito (success, CantidadReducida (nombre p))),
      set_items (<[k := set_cantidad (cantidad it - 1) it]> (items db)) db)) ∧
  (cantidad it ≤ 1 →
   actualizar_carrito user k post db =
     (inr (redirect a_ver_carrito (success, EliminadoDelCarrito (nombre p))),
      set_items (delete k (items db)) db)).
Proof.
  intros Hit Hown Hp Ha. split; intros Hc.
  - by apply actualizar_carrito_decrease_quita.
  - unfold actualizar_carrito. desmonad.
    rewrite (ItemCarrito_get_or_404_propio _ _ _ _ Hit Hown).
    rewrite Ha. rewrite decide_False by done. rewrite decide_True by done.
    unfold item_producto, ItemCarrito_delete, instance_delete. desmonad. reduce_vista.
    rewrite decide_False by lia. reduce_vista. by rewrite Hp.
Qed.

Lemma actualizar_carrito_decrease_witness :
  let post := mkPOST (Some "decrease"%string) Ausente in
  actualizar_carrito 7 1 post (Ejemplos.db_AB 3 1) =
    (inr (redirect a_ver_carrito (success, CantidadReducida "A")),
     set_items (<[1 := mkItemCarrito 1 1 2]> (items (Ejemplos.db_AB 3 1)))
       (Ejemplos.db_AB 3 1)) ∧
  actualizar_carrito 7 2 post (Ejemplos.db_AB 3 1) =
    (inr (redirect a_ver_carrito (success, EliminadoDelCarrito "B")),
     set_items (delete 2 (items (Ejemplos.db_AB 3 1))) (Ejemplos.db_AB 3 1)).
Proof.
  intros post. split.
  - apply (proj1 (actualizar_carrito_decrease (Ejemplos.db_AB 3 1) 7 1
                    (mkItemCarrito 1 1 3) Ejemplos.producto_A post
                    eq_refl eq_refl eq_refl eq_refl)).
    simpl. lia.
  - apply (proj2 (actualizar_carrito_decrease (Ejemplos.db_AB 3 1) 7 2
                    (mkItemCarrito 1 2 1) Ejemplos.producto_B post
                    eq_refl eq_refl eq_refl eq_refl)).
    simpl. lia.
Defined.

Lemma set_items_items db : set_items (items db) db = db.
Proof. by destruct db. Qed.

(** X6. "increase" followed by "decrease" on the caller's item, when the increase
    has room (the quantity is at least 1 and below the stock), puts the
    quantity of the line back to what it was; the line is still there, in the
    same cart and for the same product, and no other line, no cart and no
    product has been written.  (Both requests save the line, so its
    [auto_now] instant, which is not among the columns of the model, is the
    one of the second save.) *)
Theorem increase_decrease db user k it p :
  items db !! k = Some it →
  propietario db (carrito_id it) = Some user →
  productos db !! producto_id it = Some p →
  1 ≤ cantidad it < stock p →
  let db1 := paso db (Actualizar user k (mkPOST (Some "increase"%string) Ausente)) in
  let db2 := paso db1 (Actualizar user k (mkPOST (Some "decrease"%string) Ausente)) in
  cantidad <$> items db1 !! k = Some (cantidad it + 1) ∧
  cantidad <$> items db2 !! k = Some (cantidad it) ∧
  carrito_id <$> items db2 !! k = Some (carrito_id it) ∧
  producto_id <$> items db2 !! k = Some (producto_id it) ∧
  (∀ k', k' ≠ k → items db2 !! k' = items db !! k') ∧
  carritos db2 = carritos db ∧
  productos db2 = productos db.
Proof.
  intros Hit Hown Hp Hc.
  set (it1 := set_cantidad (cantidad it + 1) it).
  assert (H1 : paso db (Actualizar user k (mkPOST (Some "increase"%string) Ausente))
               = set_items (<[k := it1]> (items db)) db).
  { unfold paso. cbn [ejecutar].
    by rewrite (actualizar_carrito_increase_cabe db user k it p
                  (mkPOST (Some "increase"%string) Ausente) Hit Hown Hp eq_refl)
      by lia. }
  rewrite H1. set (db1 := set_items _ db).
  assert (Hit1 : items db1 !! k = Some it1) by (simpl; apply lookup_insert_eq).
  assert (H2 : paso db1 (Actualizar user k (mkPOST (Some "decrease"%string) Ausente))
               = set_items (<[k := set_cantidad (cantidad it1 - 1) it1]> (items db1)) db1).
  { unfold paso. cbn [ejecutar].
    by rewrite (actualizar_carrito_decrease_quita db1 user k it1 p
                  (mkPOST (Some "decrease"%string) Ausente) Hit1 Hown Hp eq_refl)
      by (simpl; lia). }
  cbv zeta. rewrite H2, Hit1. subst db1 it1.
  cbn [items carritos productos set_items]. rewrite lookup_insert_eq. simpl.
  repeat split; try done.
  - f_equal. lia.
  - intros k' Hne. by rewrite !lookup_insert_ne.
Qed.

Lemma increase_decrease_witness :
  let db := Ejemplos.db_AB 3 1 in
  let db1 := paso db (Actualizar 7 1 (mkPOST (Some "increase"%string) Ausente)) in
  let db2 := paso db1 (Actualizar 7 1 (mkPOST (Some "decrease"%string) Ausente)) in
  cantidad <$> items db1 !! 1 = Some (3 + 1) ∧
  cantidad <$> items db2 !! 1 = Some 3 ∧
  carrito_id <$> items db2 !! 1 = Some 1 ∧
  producto_id <$> items db2 !! 1 = Some 1 ∧
  (∀ k', k' ≠ 1 → items db2 !! k' = items db !! k') ∧
  carritos db2 = carritos db ∧
  productos db2 = productos db.
Proof.
  apply (increase_decrease (Ejemplos.db_AB 3 1) 7 1 (mkItemCarrito 1 1 3)
           Ejemplos.producto_A eq_refl eq_refl eq_refl).
  simpl. lia.
Defined.

(** X7. A manual update whose quantity is not an integer is answered with
    "Cantidad no válida" and writes nothing, whether or not the product row
    is there; a manual update without the quantity field is the update to
    quantity 1. *)
Theorem actualizar_carrito_cantidad_no_valida db user k it post :
  items db !! k = Some it →
  propietario db (carrito_id it) = Some user →
  action post ≠ Some "increase"%string →
  action post ≠ Some "decrease"%string →
  (cantidad_post post = NoEntero →
   actualizar_carrito user k post db =
     (inr (redirect a_ver_carrito (error, CantidadNoValida)), db)) ∧
  (cantidad_post post = Ausente →
   actualizar_carrito user k post db =
   actualizar_carrito user k (mkPOST (action post) (Entero 1)) db).
Proof.
  intros Hit Hown Hinc Hdec. split; intros Hq.
  - unfold actualizar_carrito. desmonad.
    rewrite (ItemCarrito_get_or_404_propio _ _ _ _ Hit Hown).
    rewrite decide_False by done. rewrite decide_False by done.
    by rewrite Hq.
  - unfold actualizar_carrito. desmonad. cbn [action cantidad_post].
    by rewrite Hq.
Qed.

Lemma actualizar_carrito_cantidad_no_valida_witness :
  actualizar_carrito 7 1 (mkPOST (Some "update"%string) NoEntero) (Ejemplos.db_AB 3 1) =
    (inr (redirect a_ver_carrito (error, CantidadNoValida)), Ejemplos.db_AB 3 1) ∧
  actualizar_carrito 7 1 (mkPOST (Some "update"%string) Ausente) (Ejemplos.db_AB 3 1) =
  actualizar_carrito 7 1 (mkPOST (Some "update"%string) (Entero 1)) (Ejemplos.db_AB 3 1).
Proof.
  pose proof (actualizar_carrito_cantidad_no_valida (Ejemplos.db_AB 3 1) 7 1
                (mkItemCarrito 1 1 3)) as H.
  split.
  - apply (H (mkPOST (Some "update"%string) NoEntero)); done.
  - apply (H (mkPOST (Some "update"%string) Ausente)); done.
Defined.

(** ** eliminar_del_carrito *)

(** X8. [eliminar_del_carrito] on the caller's item removes that row and no
    other, and names the product in its message. *)
Theorem eliminar_del_carrito_propio db user k it p :
  items db !! k = Some it →
  propietario db (carrito_id it) = Some user →
  productos db !! producto_id it = Some p →
  eliminar_del_carrito user k db =
    (inr (redirect a_ver_carrito (success, EliminadoDelCarrito (nombre p))),
     set_items (delete k (items db)) db).
Proof.
  intros Hit Hown Hp. unfold eliminar_del_carrito. desmonad.
  rewrite (ItemCarrito_get_or_404_propio _ _ _ _ Hit Hown).
  unfold item_producto, ItemCarrito_delete, instance_delete. desmonad.
  reduce_vista. by rewrite Hp.
Qed.

Lemma eliminar_del_carrito_propio_witness :
  eliminar_del_carrito 7 2 (Ejemplos.db_AB 3 1) =
    (inr (redirect a_ver_carrito (success, EliminadoDelCarrito "B")),
     set_items (delete 2 (items (Ejemplos.db_AB 3 1))) (Ejemplos.db_AB 3 1)).
Proof.
  apply (eliminar_del_carrito_propio (Ejemplos.db_AB 3 1) 7 2 (mkItemCarrito 1 2 1)
           Ejemplos.producto_B); reflexivity.
Defined.

(** ** Requests repeated *)

(** X9. [vaciar_carrito] twice is [vaciar_carrito] once: the second request gets
    the answer of the first and leaves the database the first one left, in
    every database, also those where the first request fails. *)
Theorem vaciar_carrito_idempotente db user :
  vaciar_carrito user (vaciar_carrito user db).2 =
  ((vaciar_carrito user db).1, (vaciar_carrito user db).2).
Proof.
  unfold vaciar_carrito, Carrito_get_or_404, carrito_items_delete. desmonad.
  destruct (get_object_or_404 _ (carritos db)) as [e|carrito] eqn:Hget;
    reduce_vista; rewrite Hget; reduce_vista; [done|].
  f_equal. destruct db as [ps cs its]. unfold set_items. cbn [productos carritos items].
  f_equal. apply map_eq. intros k. rewrite !lookup_queryset_delete_carrito.
  destruct (its !! k) as [it|]; [|done].
  destruct (decide (carrito_id it = carrito.1)) as [Heq|Hne]; [done|].
  by rewrite decide_False.
Qed.

(** X10. After a payment that went through, paying again finds the cart empty:
    the second request is answered "No hay productos en el carrito" and
    writes nothing. *)
Theorem procesar_pago_dos_veces db user :
  (procesar_pago user db).1 = inr (redirect a_catalogo (success, PagoProcesado)) →
  let db' := (procesar_pago user db).2 in
  procesar_pago user db' =
    (inr (redirect a_ver_carrito (warning, NoHayProductosEnElCarrito)), db').
Proof.
  unfold procesar_pago at 1 2, Carrito_get_or_404, get_object_or_404,
    carrito_items_delete. desmonad.
  destruct (objects_get _ (carritos db)) as [[]|carrito] eqn:Hget; try done.
  assert (Hcar : carrito_de db user carrito).
  { by apply (Carrito_get_inr db user carrito db); unfold Carrito_get; rewrite Hget. }
  reduce_vista.
  destruct (carrito_items_select_related carrito db) as [|x its]; [done|].
  destruct (verificar_stock (x :: its)) as [r|] eqn:Hver.
  { intros [= ->]. apply verificar_stock_Some in Hver as (? & ? & _ & _ & [=]). }
  destruct (actualizar_stock_spec (x :: its) db) as (ps & Hrun & _).
  rewrite Hrun. reduce_vista. intros _.
  unfold procesar_pago. desmonad.
  rewrite (Carrito_get_or_404_carrito_de _ user carrito) by done.
  rewrite carrito_items_select_related_nil; [done|].
  simpl. intros k it [_ Hne]%lookup_queryset_delete_carrito_Some. done.
Qed.

Lemma procesar_pago_dos_veces_witness :
  let db' := (procesar_pago 7 (Ejemplos.db_AB 2 1)).2 in
  procesar_pago 7 db' =
    (inr (redirect a_ver_carrito (warning, NoHayProductosEnElCarrito)), db').
Proof.
  apply (procesar_pago_dos_veces (Ejemplos.db_AB 2 1) 7).
  vm_compute. reflexivity.
Defined.

(** ** Every write of a cart view is made for the caller *)

Lemma propietario_get db user cid c :
  objects_get (λ c : Z * Carrito, usuario c.2 = user) (carritos db) = inr (cid, c) →
  propietario db cid = Some user.
Proof.
  intros [Hc Hu]%objects_get_inr. unfold propietario. simpl in *. by rewrite Hc, <- Hu.
Qed.

Lemma propietario_creado db user its :
  propietario
    (set_items its
       (set_carritos (<[fresh (dom (carritos db)) := mkCarrito user]> (carritos db)) db))
    (fresh (dom (carritos db))) = Some user.
Proof. unfold propietario. simpl. by rewrite lookup_insert_eq. Qed.

Lemma propietario_set_items db its cid :
  propietario (set_items its db) cid = propietario db cid.
Proof. done. Qed.

Lemma item_get_carrito (its : gmap Z ItemCarrito) cid pid k it :
  objects_get (λ it : Z * ItemCarrito, carrito_id it.2 = cid ∧ producto_id it.2 = pid) its
    = inr (k, it) →
  its !! k = Some it ∧ carrito_id it = cid.
Proof. intros [Hk [Hc _]]%objects_get_inr. done. Qed.

Lemma item_get_usuario db item_id user k it :
  objects_get (item_de_usuario db item_id user) (items db) = inr (k, it) →
  items db !! k = Some it ∧ propietario db (carrito_id it) = Some user.
Proof. intros [Hk [_ Hown]]%objects_get_inr. done. Qed.

Lemma producto_get_is_Some db pid k p :
  objects_get (λ p : Z * Producto, p.1 = pid) (productos db) = inr (k, p) →
  is_Some (productos db !! k).
Proof. intros [Hk _]%objects_get_inr. simpl in Hk. eauto. Qed.

(** The owner of the cart a view is working on, read off the context. *)
Ltac es_propietario :=
  first
    [ apply propietario_creado
    | match goal with
      | H : objects_get _ (carritos _) = inr _ |- _ =>
          exact (propietario_get _ _ _ _ H)
      end
    | match goal with
      | H : objects_get (item_de_usuario _ _ _) _ = inr _ |- _ =>
          exact (proj2 (item_get_usuario _ _ _ _ _ H))
      end
    | match goal with
      | H : objects_get _ _ = inr (_, ?it) |- propietario _ (carrito_id ?it) = _ =>
          rewrite (proj2 (item_get_carrito _ _ _ _ _ H)); es_propietario
      end ].

Ltac una_escritura :=
  lazymatch goal with
  | |- escritura ?u ?b (set_carritos (<[fresh _ := mkCarrito ?u]> _) ?b) =>
      apply (es_crea_carrito u b); by apply sin_carrito_DoesNotExist
  | |- escritura ?u ?b (set_items (<[fresh _ := mkItemCarrito ?c ?p 1]> _) ?b) =>
      apply (es_crea_item u b c p);
      [ es_propietario
      | match goal with
        | H : objects_get _ (productos _) = inr _ |- _ =>
            exact (producto_get_is_Some _ _ _ _ H)
        end ]
  | |- escritura ?u ?b (set_items (<[?k := set_cantidad ?n ?it]> _) ?b) =>
      apply (es_cambia_cantidad u b k it n);
      [ match goal with
        | H : objects_get _ _ = inr (k, it) |- _ =>
            exact (proj1 (objects_get_inr _ _ _ H))
        end
      | es_propietario ]
  | |- escritura ?u ?b (set_items (delete ?k _) ?b) =>
      match goal with
      | H : objects_get _ _ = inr (k, ?it) |- _ =>
          apply (es_borra_item u b k it);
          [ exact (proj1 (objects_get_inr _ _ _ H)) | es_propietario ]
      end
  | |- escritura ?u ?b (set_items (queryset_delete _ _) ?b) =>
      apply es_vacia_carrito; es_propietario
  end.

Ltac escrituras_hoja :=
  lazymatch goal with
  | |- rtc (escritura _) ?a ?a => apply rtc_refl
  | |- rtc (escritura _) _ (set_items _ ?b) =>
      apply rtc_r with b; [escrituras_hoja | una_escritura]
  | |- rtc (escritura _) _ (set_carritos _ ?b) =>
      apply rtc_r with b; [escrituras_hoja | una_escritura]
  end.

Lemma agregar_al_carrito_escrituras user producto_id db :
  rtc (escritura user) db (agregar_al_carrito user producto_id db).2.
Proof. abre_vista. casos_vista; simplify_eq; escrituras_hoja. Qed.

Lemma actualizar_carrito_escrituras user item_id post db :
  rtc (escritura user) db (actualizar_carrito user item_id post db).2.
Proof. abre_vista. casos_vista; simplify_eq; escrituras_hoja. Qed.

Lemma eliminar_del_carrito_escrituras user item_id db :
  rtc (escritura user) db (eliminar_del_carrito user item_id db).2.
Proof. abre_vista. casos_vista; simplify_eq; escrituras_hoja. Qed.

Lemma vaciar_carrito_escrituras user db :
  rtc (escritura user) db (vaciar_carrito user db).2.
Proof. abre_vista. casos_vista; simplify_eq; escrituras_hoja. Qed.

Lemma mismo_salvo_stock_set_stock n p : mismo_salvo_stock p (set_stock n p).
Proof. done. Qed.

Lemma set_stock_mismo n p q : mismo_salvo_stock p q → set_stock n p = set_stock n q.
Proof. unfold mismo_salvo_stock, set_stock. intros [=]. by f_equal. Qed.

Lemma actualizar_stock_escrituras user its db :
  (∀ item producto, (item, producto) ∈ its →
     ∃ p0, productos db !! producto.1 = Some p0 ∧ mismo_salvo_stock producto.2 p0) →
  rtc (escritura user) db (actualizar_stock its db).2.
Proof.
  revert db. induction its as [|[item producto] resto IH]; intros db Hfilas.
  - apply rtc_refl.
  - simpl. unfold Producto_save, instance_save. desmonad. reduce_vista.
    destruct (Hfilas item producto (list_elem_of_here _ _)) as (p0 & Hp0 & Hmismo).
    rewrite (set_stock_mismo _ _ _ Hmismo).
    set (db1 := set_productos _ db).
    assert (Hresto : ∀ i p, (i, p) ∈ resto →
              ∃ q, productos db1 !! p.1 = Some q ∧ mismo_salvo_stock p.2 q).
    { intros i p Hin.
      destruct (Hfilas i p (list_elem_of_further _ _ _ Hin)) as (q & Hq & Hm).
      subst db1. simpl. destruct (decide (producto.1 = p.1)) as [Heq|Hne].
      - rewrite Heq, lookup_insert_eq. eexists. split; [done|].
        rewrite Heq, Hq in Hp0. injection Hp0 as ->.
        etrans; [exact Hm|]. apply mismo_salvo_stock_set_stock.
      - rewrite lookup_insert_ne by done. eauto. }
    specialize (IH db1 Hresto).
    destruct (actualizar_stock resto db1) as [r db2]. simpl in *.
    eapply rtc_l; [|exact IH]. by apply es_guarda_producto.
Qed.

Lemma procesar_pago_escrituras user db :
  rtc (escritura user) db (procesar_pago user db).2.
Proof.
  destruct (decide ((procesar_pago user db).2 = db)) as [->|Hne]; [apply rtc_refl|].
  destruct (procesar_pago_escribe_validado _ _ Hne) as (carrito & Hcar & Hver).
  unfold procesar_pago, carrito_items_delete. desmonad.
  rewrite (Carrito_get_or_404_carrito_de _ _ _ Hcar). reduce_vista.
  assert (Hrtc : rtc (escritura user) db
                   (actualizar_stock (carrito_items_select_related carrito db) db).2).
  { apply actualizar_stock_escrituras. intros [k it] [pk p] Hin.
    apply elem_of_carrito_items_select_related in Hin as (_ & _ & _ & Hp).
    by exists p. }
  destruct (actualizar_stock_efectos _ db (proj1 (verificar_stock_None _) Hver))
    as [_ Hret].
  destruct (carrito_items_select_related carrito db) as [|x its]; [apply rtc_refl|].
  rewrite Hver.
  destruct (actualizar_stock_spec (x :: its) db) as (ps & Hrun & _).
  rewrite Hrun in Hrtc |- *. cbn [fst snd] in *.
  eapply rtc_r; [exact Hrtc|]. apply es_vacia_carrito.
  destruct Hcar as (Hc & Hu & _). unfold propietario. simpl. rewrite Hc. simpl.
  by rewrite Hu.
Qed.

Lemma paso_escrituras op db : rtc (escritura (usuario_de op)) db (paso db op).
Proof.
  unfold paso. destruct op; simpl;
    auto using agregar_al_carrito_escrituras, actualizar_carrito_escrituras,
      eliminar_del_carrito_escrituras, vaciar_carrito_escrituras,
      procesar_pago_escrituras.
Qed.

(** A relation between databases that every write made for an allowed user
    satisfies, and that composes, holds along every history of requests of
    allowed users. *)
Lemma historia_escrituras (R : relation DB) (permitido : Z → Prop) :
  (∀ db, R db db) →
  (∀ a b c, R a b → R b c → R a c) →
  (∀ u db db', permitido u → escritura u db db' → R db db') →
  ∀ ops db, Forall (λ op, permitido (usuario_de op)) ops → R db (historia db ops).
Proof.
  intros Hrefl Htrans Hesc ops. induction ops as [|op ops IH]; intros db Hops; [done|].
  apply Forall_cons in Hops as [Hop Hops]. simpl.
  apply Htrans with (paso db op); [|by apply IH].
  pose proof (paso_escrituras op db) as Hrtc.
  induction Hrtc as [|x y z Hxy _ IHrtc]; [done|].
  apply Htrans with y; [by eapply Hesc|done].
Qed.

(** ** No cart view removes or alters a cart row *)

Lemma escritura_carritos u db db' :
  escritura u db db' → carritos db ⊆ carritos db'.
Proof.
  intros []; simpl; try done.
  apply insert_subseteq, not_elem_of_dom, is_fresh.
Qed.

(** X11. Along any sequence of requests to the cart views, every cart row that
    existed is still there with the same owner: carts are only ever added. *)
Theorem carritos_persisten db ops :
  carritos db ⊆ carritos (historia db ops).
Proof.
  apply (historia_escrituras (λ db db', carritos db ⊆ carritos db') (λ _, True)).
  - done.
  - intros a b c Hab Hbc. by trans (carritos b).
  - intros u d d' _. apply escritura_carritos.
  - by apply Forall_true.
Qed.

(** ** Users do not touch each other's carts *)

Lemma escritura_mismo_carrito u v db db' :
  u ≠ v → escritura u db db' → mismo_carrito v db db'.
Proof.
  intros Huv Hesc. unfold mismo_carrito.
  destruct Hesc as [Hsin|cid pid Hown Hp|k it n Hk Hown|k it Hk Hown|cid Hown|pk p n Hp];
    unfold propietario in *; simpl.
  - assert (Hfresh : carritos db !! fresh (dom (carritos db)) = None)
      by apply not_elem_of_dom, is_fresh.
    assert (Hcid : ∀ cid,
      usuario <$> <[fresh (dom (carritos db)) := mkCarrito u]> (carritos db) !! cid = Some v
      ↔ usuario <$> carritos db !! cid = Some v).
    { intros cid. destruct (decide (cid = fresh (dom (carritos db)))) as [->|Hne].
      - rewrite lookup_insert_eq, Hfresh. simpl. split; [congruence|done].
      - by rewrite lookup_insert_ne. }
    split; [done|]. intros k it. by rewrite Hcid.
  - split; [done|]. intros k it.
    destruct (decide (k = fresh (dom (items db)))) as [->|Hne].
    + rewrite lookup_insert_eq.
      rewrite (proj1 (not_elem_of_dom _ _) (is_fresh (dom (items db)))).
      split; [|by intros [? _]]. intros [[= <-] Hv]. simpl in Hv. congruence.
    + by rewrite lookup_insert_ne.
  - split; [done|]. intros k' it'.
    destruct (decide (k' = k)) as [->|Hne].
    + rewrite lookup_insert_eq, Hk.
      split; intros [[= <-] Hv]; simpl in Hv; congruence.
    + by rewrite lookup_insert_ne.
  - split; [done|]. intros k' it'.
    destruct (decide (k' = k)) as [->|Hne].
    + rewrite lookup_delete_eq, Hk. split; [by intros [? _]|].
      intros [[= <-] Hv]. congruence.
    + by rewrite lookup_delete_ne.
  - split; [done|]. intros k it. rewrite lookup_queryset_delete_carrito_Some.
    split; [tauto|]. intros [Hk Hv]. repeat split; try done.
    intros Heq. rewrite Heq in Hv. congruence.
  - done.
Qed.

(** X12. The carts of a user, and the items in them, are exactly what they were
    after any sequence of requests that other users make to the cart views:
    nothing is added to them, removed from them or changed in them. *)
Theorem aislamiento v db ops :
  Forall (λ op, usuario_de op ≠ v) ops →
  mismo_carrito v db (historia db ops).
Proof.
  apply (historia_escrituras (mismo_carrito v) (λ u, u ≠ v)).
  - by intros d.
  - intros a b c [Hab1 Hab2] [Hbc1 Hbc2]. split.
    + intros cid. by rewrite Hbc1.
    + intros k it. by rewrite Hbc2.
  - intros u d d' Hu. by apply escritura_mismo_carrito.
Qed.

Lemma aislamiento_witness :
  mismo_carrito 8 Ejemplos2.db_dos_usuarios
    (historia Ejemplos2.db_dos_usuarios Ejemplos2.ops_de_7).
Proof.
  apply aislamiento. unfold Ejemplos2.ops_de_7.
  repeat (apply Forall_cons; split; [simpl; lia|]). apply Forall_nil_2.
Defined.

(** What that history leaves: user 7 paid for 2 units of A and 1 of B, and
    line 2, of user 8, is where it was. *)
Example historia_ops_de_7 :
  let db := historia Ejemplos2.db_dos_usuarios Ejemplos2.ops_de_7 in
  stock <$> productos db !! 1 = Some 3 ∧
  stock <$> productos db !! 2 = Some 1 ∧
  map_to_list (items db) = [(2, mkItemCarrito 2 2 1)].
Proof. vm_compute. done. Qed.

(** ** Items keep pointing to rows that exist *)

Lemma escritura_integridad u db db' :
  escritura u db db' → integridad db → integridad db'.
Proof.
  unfold integridad.
  intros [Hsin|cid pid Hown Hp|k it n Hk Hown|k it Hk Hown|cid Hown|pk p n Hp] Hint;
    simpl.
  - intros k it Hk. destruct (Hint k it Hk) as [? ?]. split; [done|].
    rewrite lookup_insert_is_Some. destruct (decide (fresh (dom (carritos db)) = carrito_id it)); eauto.
  - intros k it [[_ <-]|[_ Hk]]%lookup_insert_Some; [|by eapply Hint].
    simpl. split; [done|]. unfold propietario in Hown.
    destruct (carritos db !! cid); [eauto|done].
  - intros k' it' [[_ <-]|[_ Hk']]%lookup_insert_Some; [|by eapply Hint].
    simpl. by eapply Hint.
  - intros k' it' [_ Hk']%lookup_delete_Some. by eapply Hint.
  - intros k it [Hk _]%lookup_queryset_delete_carrito_Some. by eapply Hint.
  - intros k it Hk. destruct (Hint k it Hk) as [? ?]. split; [|done].
    rewrite lookup_insert_is_Some. destruct (decide (pk = producto_id it)); eauto.
Qed.

(** X13. From a database in which every item points to an existing product and an
    existing cart, every sequence of requests to the cart views leads to such
    a database. *)
Theorem integridad_historia db ops :
  integridad db → integridad (historia db ops).
Proof.
  apply (historia_escrituras (λ db db', integridad db → integridad db') (λ _, True)).
  - done.
  - intros a b c Hab Hbc Ha. auto.
  - intros u d d' _. apply escritura_integridad.
  - by apply Forall_true.
Qed.

Lemma integridad_db_inicial : integridad Ejemplos.db_inicial.
Proof. intros k it Hk. simpl in Hk. by rewrite lookup_empty in Hk. Defined.

Lemma integridad_historia_witness :
  integridad (historia Ejemplos.db_inicial Ejemplos.compra).
Proof. apply integridad_historia, integridad_db_inicial. Defined.

(** ** What the cart views do to the products *)

Lemma productos_sin_pago op db :
  (∀ user, op ≠ Pagar user) → productos (paso db op) = productos db.
Proof.
  unfold paso. destruct op as [u pk|u k post|u k|u|u]; intros Hop; cbn [ejecutar];
    [..|by destruct (Hop u)];
    abre_vista; casos_vista; reflexivity.
Qed.

(** What a payment that writes has done: the stocks were saved by the second
    loop and the items of the cart were deleted. *)
Lemma procesar_pago_inv db user :
  (procesar_pago user db).2 = db ∨
  ∃ carrito ps,
    carrito_de db user carrito ∧
    verificar_stock (carrito_items_select_related carrito db) = None ∧
    actualizar_stock (carrito_items_select_related carrito db) db
      = (inr tt, set_productos ps db) ∧
    procesar_pago user db =
      (inr (redirect a_catalogo (success, PagoProcesado)),
       set_items
         (queryset_delete (λ it : Z * ItemCarrito, carrito_id it.2 = carrito.1) (items db))
         (set_productos ps db)).
Proof.
  destruct (decide ((procesar_pago user db).2 = db)) as [?|Hne]; [by left|right].
  destruct (procesar_pago_escribe_validado _ _ Hne) as (carrito & Hcar & Hver).
  destruct (actualizar_stock_spec (carrito_items_select_related carrito db) db)
    as (ps & Hrun & _).
  exists carrito, ps. split; [done|]. split; [done|]. split; [done|].
  revert Hne. unfold procesar_pago, carrito_items_delete. desmonad.
  rewrite (Carrito_get_or_404_carrito_de _ _ _ Hcar). reduce_vista.
  destruct (carrito_items_select_related carrito db) as [|x its]; [done|].
  by rewrite Hver, Hrun.
Qed.

Lemma escritura_productos u db db' :
  escritura u db db' →
  ∀ pk, option_Forall2 mismo_salvo_stock (productos db !! pk) (productos db' !! pk).
Proof.
  intros [Hsin|cid pid Hown Hp|k it n Hk Hown|k it Hk Hown|cid Hown|pk p n Hp] pk';
    simpl; try reflexivity.
  destruct (decide (pk = pk')) as [<-|Hne].
  - rewrite lookup_insert_eq, Hp. constructor. apply mismo_salvo_stock_set_stock.
  - rewrite lookup_insert_ne by done. reflexivity.
Qed.

Lemma paso_productos db op pk :
  option_Forall2 mismo_salvo_stock (productos db !! pk) (productos (paso db op) !! pk).
Proof.
  pose proof (paso_escrituras op db) as Hrtc.
  induction Hrtc as [|x y z Hxy _ IHrtc]; [reflexivity|].
  etrans; [by eapply escritura_productos|done].
Qed.

Lemma paso_stock_no_sube db op :
  (∀ k it, items db !! k = Some it → 0 ≤ cantidad it) →
  ∀ pk p', productos (paso db op) !! pk = Some p' →
    ∃ p, productos db !! pk = Some p ∧ stock p' ≤ stock p.
Proof.
  intros Hpos pk p' Hp'.
  assert (Hno : productos (paso db op) = productos db →
                ∃ p, productos db !! pk = Some p ∧ stock p' ≤ stock p).
  { intros Heq. rewrite Heq in Hp'. exists p'. split; [done|lia]. }
  destruct op as [u k|u k post|u k|u|u];
    try (apply Hno, productos_sin_pago; by intros ?).
  unfold paso in *. cbn [ejecutar] in *.
  destruct (procesar_pago_inv db u) as [Heq|(carrito & ps & Hcar & Hver & Hrun & Hpago)].
  { apply Hno. unfold paso. cbn [ejecutar]. by rewrite Heq. }
  rewrite Hpago in Hp'. simpl in Hp'.
  destruct (actualizar_stock_spec (carrito_items_select_related carrito db) db)
    as (ps' & Hrun' & _ & _ & Hinv).
  assert (ps' = ps) as ->.
  { assert (Hps : set_productos ps db = set_productos ps' db) by congruence.
    unfold set_productos in Hps. congruence. }
  apply (Hinv (λ k p', ∃ p, productos db !! k = Some p ∧ stock p' ≤ stock p)); [..|done].
  - intros k q Hk. exists q. split; [done|lia].
  - intros [k it] [k' q] Hel.
    apply elem_of_carrito_items_select_related in Hel as (Hk & _ & _ & Hq).
    exists q. simpl in *. split; [done|]. specialize (Hpos _ _ Hk). lia.
Qed.

Lemma mismo_salvo_stock_columnas p q : mismo_salvo_stock p q → mismas_columnas p q.
Proof.
  destruct p, q. unfold mismo_salvo_stock, mismas_columnas, set_stock. simpl.
  intros [= -> -> -> -> -> ->]. done.
Qed.

Lemma historia_productos db ops pk :
  option_Forall2 mismo_salvo_stock
    (productos db !! pk) (productos (historia db ops) !! pk).
Proof.
  revert db. induction ops as [|op ops IH]; intros db; [reflexivity|].
  simpl. etrans; [apply paso_productos|apply IH].
Qed.

Lemma historia_stock_no_sube db ops pk :
  cantidades_positivas db →
  option_Forall2 (λ p p', stock p' ≤ stock p)
    (productos db !! pk) (productos (historia db ops) !! pk).
Proof.
  revert db. induction ops as [|op ops IH]; intros db Hpos.
  - simpl. destruct (productos db !! pk); constructor. lia.
  - simpl.
    assert (Hpos' : cantidades_positivas (paso db op)).
    { apply (invariante_historia _ efecto_cantidades_positivas [op] db Hpos). }
    specialize (IH (paso db op) Hpos').
    pose proof (paso_productos db op pk) as Hfila.
    assert (Hbaja := paso_stock_no_sube db op
                       (λ k it Hk, Z.le_trans _ _ _ (Z.le_0_1) (Hpos k it Hk)) pk).
    destruct Hfila as [p p1 Hm|]; [|done].
    destruct (Hbaja p1 eq_refl) as (p0 & [= <-] & Hle).
    inversion IH as [? p2 Hle2|]; subst. constructor. lia.
Qed.

(** X14. After any sequence of requests to the cart views each product key holds
    a row exactly when it did, and the row has the category, name, brand,
    model, price and creation instant it had: the views add no product,
    remove none, and write no column of a product but its stock (and the
    [auto_now] instant that each save of a row sets, which is not among the
    columns of the model).  From a database whose items all have a quantity
    of at least 1, moreover, no stock is ever raised. *)
Theorem productos_solo_bajan db ops :
  (∀ pk, option_Forall2 mismas_columnas
           (productos db !! pk) (productos (historia db ops) !! pk)) ∧
  (cantidades_positivas db →
   ∀ pk, option_Forall2 (λ p p', stock p' ≤ stock p)
           (productos db !! pk) (productos (historia db ops) !! pk)).
Proof.
  split.
  - intros pk. destruct (historia_productos db ops pk) as [p p' Hm|]; constructor.
    by apply mismo_salvo_stock_columnas.
  - intros Hpos pk. by apply historia_stock_no_sube.
Qed.

Lemma productos_solo_bajan_witness :
  cantidades_positivas Ejemplos.db_inicial ∧
  option_Forall2 mismas_columnas
    (productos Ejemplos.db_inicial !! 1)
    (productos (historia Ejemplos.db_inicial Ejemplos.compra) !! 1) ∧
  option_Forall2 (λ p p', stock p' ≤ stock p)
    (productos Ejemplos.db_inicial !! 1)
    (productos (historia Ejemplos.db_inicial Ejemplos.compra) !! 1).
Proof.
  assert (H : cantidades_positivas Ejemplos.db_inicial).
  { unfold cantidades_positivas. simpl. por_tabla. }
  split; [exact H|].
  destruct (productos_solo_bajan Ejemplos.db_inicial Ejemplos.compra) as [Hcol Hbaja].
  split; [exact (Hcol 1)|exact (Hbaja H 1)].
Defined.

(** ** What the cart shows: ver_carrito, Carrito.total, api_carrito_cantidad *)

Lemma foldl_add_acc (l : list Z) (a : Z) : foldl Z.add a l = a + py_sum l.
Proof.
  unfold py_sum. revert a. induction l as [|x l IH]; intros a; simpl; [lia|].
  rewrite (IH (a + x)), (IH (0 + x)). lia.
Qed.

Lemma sum_cons x l : py_sum (x :: l) = x + py_sum l.
Proof. unfold py_sum at 1. simpl. apply foldl_add_acc. Qed.

Lemma sum_nil : py_sum [] = 0.
Proof. done. Qed.

Lemma sum_Permutation l1 l2 : l1 ≡ₚ l2 → py_sum l1 = py_sum l2.
Proof.
  intros Hp. induction Hp as [|x l l' _ IH|x y l|l l' l'' _ IH1 _ IH2].
  - done.
  - by rewrite !sum_cons, IH.
  - rewrite !sum_cons. lia.
  - congruence.
Qed.

Lemma sum_app l1 l2 : py_sum (l1 ++ l2) = py_sum l1 + py_sum l2.
Proof.
  induction l1 as [|x l1 IH]; simpl; [by rewrite sum_nil|].
  rewrite !sum_cons, IH. lia.
Qed.

(** The lines of a cart, when every item of the database points to a
    product: the join loses no line. *)
Lemma carrito_items_select_related_integro carrito db :
  integridad db →
  (carrito_items_select_related carrito db).*1 = carrito_items_all carrito db.
Proof.
  intros Hint. unfold carrito_items_select_related, carrito_items_all.
  assert (Hall : ∀ it, it ∈ objects_filter
                   (λ it : Z * ItemCarrito, carrito_id it.2 = carrito.1) (items db) →
                 is_Some (productos db !! producto_id it.2)).
  { intros [k it] [_ Hk]%elem_of_objects_filter. by destruct (Hint k it Hk). }
  induction (objects_filter _ (items db)) as [|it l IH]; [done|].
  simpl. destruct (Hall it (list_elem_of_here _ _)) as [p Hp]. rewrite Hp. simpl.
  f_equal. apply IH. intros x Hx. apply Hall. by right.
Qed.

Lemma sum_vista_subtotal (l : list (Z * ItemCarrito)) db acc :
  (∀ it, it ∈ l → is_Some (productos db !! producto_id it.2)) →
  sum_vista subtotal l acc db =
    (inr (acc + py_sum ((λ x : (Z * ItemCarrito) * (Z * Producto),
                        cantidad x.1.2 * precio x.2.2) <$>
                     omap (λ it, p ← productos db !! producto_id it.2;
                                 Some (it, (producto_id it.2, p))) l)), db).
Proof.
  revert acc. induction l as [|it l IH]; intros acc Hall.
  - simpl. rewrite sum_nil. unfold mret, Vista_ret, ret. do 2 f_equal. lia.
  - simpl. unfold subtotal, item_producto. desmonad.
    destruct (Hall it (list_elem_of_here _ _)) as [p Hp]. rewrite Hp. simpl.
    rewrite IH by (intros x Hx; apply Hall; by right).
    rewrite sum_cons. simpl. do 2 f_equal.
    rewrite (Z.mul_comm (precio p)), Z.add_assoc. reflexivity.
Qed.

(** X15. For the user's cart in a database whose items all point to existing rows,
    [ver_carrito] writes nothing and shows exactly the lines of that cart,
    each with quantity times price as its subtotal; the total it shows is the
    one the model property [Carrito.total] computes. *)
Theorem ver_carrito_total db user carrito :
  carrito_de db user carrito →
  integridad db →
  ∃ ctx, ver_carrito user db = (inr ctx, db) ∧
    (items_con_subtotal ctx).*1.*1 = carrito_items_all carrito db ∧
    (∀ linea, linea ∈ items_con_subtotal ctx →
       productos db !! producto_id linea.1.1.2 = Some linea.1.2.2 ∧
       linea.2 = cantidad linea.1.1.2 * precio linea.1.2.2) ∧
    total ctx = py_sum ((items_con_subtotal ctx).*2) ∧
    Carrito_total carrito db = (inr (total ctx), db).
Proof.
  intros Hcar Hint. eexists. split.
  { unfold ver_carrito, Carrito_get_or_create. desmonad.
    rewrite (Carrito_get_carrito_de _ _ _ Hcar). reduce_vista. reflexivity. }
  cbn [items_con_subtotal total]. split; [|split; [|split]].
  - rewrite <- (carrito_items_select_related_integro carrito db Hint).
    rewrite <- !list_fmap_compose. by apply list_fmap_ext.
  - intros [[it p] s] Hin. apply list_elem_of_fmap in Hin as ([it' p'] & [= -> -> ->] & Hin).
    apply elem_of_carrito_items_select_related in Hin as (_ & _ & Hpk & Hp).
    simpl. split; [|done]. by rewrite <- Hpk.
  - done.
  - unfold Carrito_total. desmonad.
    rewrite sum_vista_subtotal.
    + do 2 f_equal. rewrite Z.add_0_l. f_equal. rewrite <- list_fmap_compose. done.
    + intros [k it] [_ Hk]%elem_of_objects_filter. by destruct (Hint k it Hk).
Qed.

Lemma integridad_db_AB qa qb : integridad (Ejemplos.db_AB qa qb).
Proof.
  unfold integridad. simpl. por_filas; split; eexists; reflexivity.
Defined.

Lemma ver_carrito_total_witness :
  ∃ ctx, ver_carrito 7 (Ejemplos.db_AB 3 1) = (inr ctx, Ejemplos.db_AB 3 1) ∧
    (items_con_subtotal ctx).*1.*1 =
      carrito_items_all (1, mkCarrito 7) (Ejemplos.db_AB 3 1) ∧
    (∀ linea, linea ∈ items_con_subtotal ctx →
       productos (Ejemplos.db_AB 3 1) !! producto_id linea.1.1.2 = Some linea.1.2.2 ∧
       linea.2 = cantidad linea.1.1.2 * precio linea.1.2.2) ∧
    total ctx = py_sum ((items_con_subtotal ctx).*2) ∧
    Carrito_total (1, mkCarrito 7) (Ejemplos.db_AB 3 1) =
      (inr (total ctx), Ejemplos.db_AB 3 1).
Proof.
  apply (ver_carrito_total (Ejemplos.db_AB 3 1) 7 (1, mkCarrito 7)).
  - apply carrito_de_db_AB.
  - apply integridad_db_AB.
Defined.

(** The figures of that cart: 3 units of A at 10.00 and 1 of B at 25.00. *)
Example ver_carrito_db_AB :
  match (ver_carrito 7 (Ejemplos.db_AB 3 1)).1 with
  | inr ctx => total ctx = 5500
  | inl _ => False
  end ∧
  (api_carrito_cantidad 7 (Ejemplos.db_AB 3 1)).1 = inr (mkJsonResponse 200 4 None).
Proof. vm_compute. done. Qed.

(** X16. The first visit of a user who owns no cart creates the cart, in a
    database whose items all point to existing carts, and shows it empty with
    a total of 0; no item and no product is touched. *)
Theorem ver_carrito_sin_carrito db user :
  sin_carrito db user →
  integridad db →
  ver_carrito user db =
    (inr (mkContextoCarrito [] 0),
     set_carritos (<[fresh (dom (carritos db)) := mkCarrito user]> (carritos db)) db).
Proof.
  intros Hsin Hint. unfold ver_carrito, Carrito_get_or_create, Carrito_get. desmonad.
  rewrite (proj2 (objects_get_DoesNotExist _ (carritos db))) by exact Hsin.
  rewrite decide_True by done.
  unfold Carrito_create, objects_create. reduce_vista.
  rewrite carrito_items_select_related_nil; [done|].
  simpl. intros k it Hk Heq. destruct (Hint k it Hk) as [_ [c Hc]].
  rewrite Heq in Hc.
  by rewrite (proj1 (not_elem_of_dom _ _) (is_fresh (dom (carritos db)))) in Hc.
Qed.

Lemma ver_carrito_sin_carrito_witness :
  ver_carrito 8 (Ejemplos.db_AB 3 1) =
    (inr (mkContextoCarrito [] 0),
     set_carritos
       (<[fresh (dom (carritos (Ejemplos.db_AB 3 1))) := mkCarrito 8]>
          (carritos (Ejemplos.db_AB 3 1))) (Ejemplos.db_AB 3 1)).
Proof.
  apply ver_carrito_sin_carrito.
  - unfold sin_carrito. simpl. por_tabla.
  - apply integridad_db_AB.
Defined.

Lemma default_aggregate_Sum l : default 0 (aggregate_Sum l) = py_sum l.
Proof. by destruct l. Qed.

Lemma api_carrito_cantidad_carrito db user carrito :
  carrito_de db user carrito →
  api_carrito_cantidad user db =
    (inr (mkJsonResponse 200
            (py_sum ((λ item : Z * ItemCarrito, cantidad item.2) <$>
                       carrito_items_all carrito db)) None), db).
Proof.
  intros Hcar. unfold api_carrito_cantidad, try_except_Exception. desmonad.
  rewrite (Carrito_get_carrito_de _ _ _ Hcar). reduce_vista.
  by rewrite default_aggregate_Sum.
Qed.

(** X17. [api_carrito_cantidad] never writes and never lets an exception escape.
    It answers 0 for a user who owns no cart and, for the user's cart, the
    number of units that the model property [Carrito.cantidad_items] counts;
    when the lookup of the cart fails in any other way it answers with status
    500 and a count of 0. *)
Theorem api_carrito_cantidad_spec db user :
  (∃ r, api_carrito_cantidad user db = (inr r, db) ∧
        (status r = 200 ∧ json_message r = None ∨
         status r = 500 ∧ json_cantidad r = 0)) ∧
  (sin_carrito db user →
   api_carrito_cantidad user db = (inr (mkJsonResponse 200 0 None), db)) ∧
  (∀ carrito, carrito_de db user carrito →
     ∃ n, Carrito_cantidad_items carrito db = (inr n, db) ∧
       api_carrito_cantidad user db = (inr (mkJsonResponse 200 n None), db)).
Proof.
  split; [|split].
  - unfold api_carrito_cantidad, try_except_Exception, Carrito_get. desmonad.
    destruct (objects_get _ (carritos db)) as [e|carrito]; reduce_vista.
    + destruct (decide (e = DoesNotExist)); reduce_vista; eexists;
        (split; [reflexivity|]); simpl; auto.
    + eexists. split; [reflexivity|]. simpl. auto.
  - intros Hsin.
    unfold api_carrito_cantidad, try_except_Exception, Carrito_get. desmonad.
    rewrite (proj2 (objects_get_DoesNotExist _ (carritos db))) by exact Hsin.
    by rewrite decide_True by done.
  - intros carrito Hcar. eexists. split.
    + unfold Carrito_cantidad_items. desmonad. reflexivity.
    + by apply api_carrito_cantidad_carrito.
Qed.

Lemma api_carrito_cantidad_spec_witness :
  api_carrito_cantidad 8 (Ejemplos.db_AB 3 1) =
    (inr (mkJsonResponse 200 0 None), Ejemplos.db_AB 3 1) ∧
  ∃ n, Carrito_cantidad_items (1, mkCarrito 7) (Ejemplos.db_AB 3 1) =
         (inr n, Ejemplos.db_AB 3 1) ∧
       api_carrito_cantidad 7 (Ejemplos.db_AB 3 1) =
         (inr (mkJsonResponse 200 n None), Ejemplos.db_AB 3 1).
Proof.
  destruct (api_carrito_cantidad_spec (Ejemplos.db_AB 3 1) 8) as (_ & Hsin & _).
  destruct (api_carrito_cantidad_spec (Ejemplos.db_AB 3 1) 7) as (_ & _ & Hcar).
  split.
  - apply Hsin. unfold sin_carrito. simpl. por_tabla.
  - apply Hcar, carrito_de_db_AB.
Defined.

(** ** How the requests move the counter of the cart *)

Lemma objects_filter_insert_None {R} (P : Z * R → Prop) `{!∀ x, Decision (P x)}
    (t : gmap Z R) k v :
  t !! k = None →
  objects_filter P (<[k := v]> t) ≡ₚ
    (if decide (P (k, v)) then [(k, v)] else []) ++ objects_filter P t.
Proof.
  intros Hk. unfold objects_filter. rewrite (map_to_list_insert t k v Hk).
  rewrite filter_cons. by destruct (decide (P (k, v))).
Qed.

Lemma objects_filter_insert_Some {R} (P : Z * R → Prop) `{!∀ x, Decision (P x)}
    (t : gmap Z R) k v r :
  t !! k = Some r →
  objects_filter P (<[k := v]> t) ≡ₚ
    (if decide (P (k, v)) then [(k, v)] else []) ++ objects_filter P (delete k t) ∧
  objects_filter P t ≡ₚ
    (if decide (P (k, r)) then [(k, r)] else []) ++ objects_filter P (delete k t).
Proof.
  intros Hk. split.
  - rewrite <- insert_delete_eq. apply objects_filter_insert_None, lookup_delete_eq.
  - rewrite <- (insert_delete_id t k r Hk) at 1.
    apply objects_filter_insert_None, lookup_delete_eq.
Qed.

Lemma objects_filter_casos {R} (P : Z * R → Prop) `{!∀ x, Decision (P x)}
    (t : gmap Z R) :
  (∀ k r, t !! k = Some r → ¬ P (k, r)) ∨ (∃ k r, t !! k = Some r ∧ P (k, r)).
Proof.
  destruct (objects_filter P t) as [|[k r] l] eqn:Hfil.
  - left. by apply (objects_filter_nil P t).
  - right. exists k, r.
    assert (Hin : (k, r) ∈ objects_filter P t) by (rewrite Hfil; left).
    apply elem_of_objects_filter in Hin. tauto.
Qed.

(** The units in a cart, as [Carrito.cantidad_items] and the counter of the
    page count them. *)
Lemma unidades_insert_None carrito db k v :
  items db !! k = None → carrito_id v = carrito.1 →
  py_sum ((λ item : Z * ItemCarrito, cantidad item.2) <$>
            carrito_items_all carrito (set_items (<[k := v]> (items db)) db)) =
  cantidad v +
  py_sum ((λ item : Z * ItemCarrito, cantidad item.2) <$> carrito_items_all carrito db).
Proof.
  intros Hk Hc. unfold carrito_items_all. simpl.
  pose proof (objects_filter_insert_None
                (λ it : Z * ItemCarrito, carrito_id it.2 = carrito.1) (items db) k v Hk)
    as Hperm.
  rewrite decide_True in Hperm by done.
  rewrite (sum_Permutation _ _ (fmap_Permutation _ _ _ Hperm)).
  simpl. by rewrite sum_cons.
Qed.

Lemma unidades_insert_Some carrito db k it n :
  items db !! k = Some it → carrito_id it = carrito.1 →
  py_sum ((λ item : Z * ItemCarrito, cantidad item.2) <$>
            carrito_items_all carrito
              (set_items (<[k := set_cantidad n it]> (items db)) db)) =
  n - cantidad it +
  py_sum ((λ item : Z * ItemCarrito, cantidad item.2) <$> carrito_items_all carrito db).
Proof.
  intros Hk Hc. unfold carrito_items_all. simpl.
  destruct (objects_filter_insert_Some
              (λ it : Z * ItemCarrito, carrito_id it.2 = carrito.1) (items db)
              k (set_cantidad n it) it Hk) as [Hnew Hold].
  rewrite !decide_True in Hnew, Hold by done.
  rewrite (sum_Permutation _ _ (fmap_Permutation _ _ _ Hnew)).
  rewrite (sum_Permutation _ _ (fmap_Permutation _ _ _ Hold)).
  simpl. rewrite !sum_cons. simpl. lia.
Qed.

(** X18. Adding a product moves the counter of the user's cart by exactly one
    when the view reports success and leaves it where it was when the view
    warns; the view does one or the other. *)
Theorem agregar_al_carrito_cuenta db user carrito pk p :
  carrito_de db user carrito →
  un_item_por_producto db →
  productos db !! pk = Some p →
  ∃ n nivel texto,
    api_carrito_cantidad user db = (inr (mkJsonResponse 200 n None), db) ∧
    (agregar_al_carrito user pk db).1 = inr (redirect a_ver_carrito (nivel, texto)) ∧
    let db' := (agregar_al_carrito user pk db).2 in
    (nivel = success ∧
       api_carrito_cantidad user db' = (inr (mkJsonResponse 200 (n + 1) None), db') ∨
     nivel = warning ∧
       api_carrito_cantidad user db' = (inr (mkJsonResponse 200 n None), db')).
Proof.
  intros Hcar Huniq Hp.
  assert (Hcar' : ∀ its, carrito_de (set_items its db) user carrito) by done.
  eexists.
  destruct (objects_filter_casos (λ it : Z * ItemCarrito,
              carrito_id it.2 = carrito.1 ∧ producto_id it.2 = pk) (items db))
    as [Hfil|(k & it & Hk & Hc & Hpk)].
  - rewrite (agregar_al_carrito_nuevo db user carrito pk p Hcar Hp Hfil).
    do 2 eexists. split; [by apply api_carrito_cantidad_carrito|].
    split; [reflexivity|]. left. split; [done|]. cbn [snd].
    rewrite (api_carrito_cantidad_carrito _ user carrito (Hcar' _)).
    rewrite unidades_insert_None; [|apply not_elem_of_dom, is_fresh|done].
    simpl. do 3 f_equal. lia.
  - simpl in *.
    assert (Hunico : ∀ k' it', items db !! k' = Some it' →
              carrito_id it' = carrito.1 → producto_id it' = pk → k' = k).
    { intros k' it' Hk' Hc' Hpk'. eapply Huniq; eauto; congruence. }
    destruct (agregar_al_carrito_existente db user carrito pk p k it
                Hcar Hp Hk Hc Hpk Hunico) as [Hlleno Hcabe].
    destruct (decide (cantidad it + 1 ≤ stock p)) as [Hle|Hgt].
    + rewrite (Hcabe Hle). do 2 eexists.
      split; [by apply api_carrito_cantidad_carrito|].
      split; [reflexivity|]. left. split; [done|]. cbn [snd].
      rewrite (api_carrito_cantidad_carrito _ user carrito (Hcar' _)).
      rewrite (unidades_insert_Some carrito db k it _ Hk Hc).
      do 3 f_equal. lia.
    + rewrite (Hlleno ltac:(lia)). do 2 eexists.
      split; [by apply api_carrito_cantidad_carrito|].
      split; [reflexivity|]. right. split; [done|]. cbn [snd].
      by apply api_carrito_cantidad_carrito.
Qed.

Lemma agregar_al_carrito_cuenta_witness :
  ∃ n nivel texto,
    api_carrito_cantidad 7 (Ejemplos.db_AB 3 1) =
      (inr (mkJsonResponse 200 n None), Ejemplos.db_AB 3 1) ∧
    (agregar_al_carrito 7 1 (Ejemplos.db_AB 3 1)).1 =
      inr (redirect a_ver_carrito (nivel, texto)) ∧
    let db' := (agregar_al_carrito 7 1 (Ejemplos.db_AB 3 1)).2 in
    (nivel = success ∧
       api_carrito_cantidad 7 db' = (inr (mkJsonResponse 200 (n + 1) None), db') ∨
     nivel = warning ∧
       api_carrito_cantidad 7 db' = (inr (mkJsonResponse 200 n None), db')).
Proof.
  apply (agregar_al_carrito_cuenta (Ejemplos.db_AB 3 1) 7 (1, mkCarrito 7) 1
           Ejemplos.producto_A).
  - apply carrito_de_db_AB.
  - unfold un_item_por_producto. simpl. intros k1 k2 it1 it2 Hk1 Hk2.
    revert k2 it2 Hk2. revert k1 it1 Hk1. por_filas; por_filas; congruence.
  - reflexivity.
Defined.

Lemma carrito_de_creado db user its :
  sin_carrito db user →
  carrito_de
    (set_items its
       (set_carritos (<[fresh (dom (carritos db)) := mkCarrito user]> (carritos db)) db))
    user (fresh (dom (carritos db)), mkCarrito user).
Proof.
  intros Hsin. split; [|split]; simpl.
  - apply lookup_insert_eq.
  - done.
  - intros k c [[<- _]|[_ Hk]]%lookup_insert_Some Hu; [done|]. by destruct (Hsin k c Hk).
Qed.

(** X19. The first product a user adds, when that user owns no cart yet, creates
    the cart and one line of quantity 1 in it, in a database whose items all
    point to existing carts. *)
Theorem agregar_al_carrito_primer_uso db user pk p :
  sin_carrito db user →
  integridad db →
  productos db !! pk = Some p →
  agregar_al_carrito user pk db =
    (inr (redirect a_ver_carrito (success, AnadidoAlCarrito (nombre p))),
     set_items
       (<[fresh (dom (items db)) := mkItemCarrito (fresh (dom (carritos db))) pk 1]>
          (items db))
       (set_carritos (<[fresh (dom (carritos db)) := mkCarrito user]> (carritos db)) db)).
Proof.
  intros Hsin Hint Hp.
  unfold agregar_al_carrito, Carrito_get_or_create. desmonad.
  rewrite (Producto_get_or_404_Some _ _ _ Hp).
  unfold Carrito_get at 1. reduce_vista.
  rewrite (proj2 (objects_get_DoesNotExist _ (carritos db))) by exact Hsin.
  rewrite decide_True by done.
  unfold Carrito_create, objects_create. reduce_vista.
  unfold ItemCarrito_get. reduce_vista.
  rewrite (proj2 (objects_get_DoesNotExist _ (items db))).
  2:{ intros k it Hk [Hc _]. simpl in Hc. destruct (Hint k it Hk) as [_ [c Hcart]].
      rewrite Hc in Hcart.
      by rewrite (proj1 (not_elem_of_dom _ _) (is_fresh (dom (carritos db)))) in Hcart. }
  rewrite decide_True by done.
  unfold ItemCarrito_create, objects_create. reduce_vista.
  by rewrite (Carrito_get_carrito_de _ _ _ (carrito_de_creado db user _ Hsin)).
Qed.

Lemma agregar_al_carrito_primer_uso_witness :
  agregar_al_carrito 8 2 (Ejemplos.db_AB 3 1) =
    (inr (redirect a_ver_carrito (success, AnadidoAlCarrito "B")),
     set_items
       (<[fresh (dom (items (Ejemplos.db_AB 3 1))) :=
            mkItemCarrito (fresh (dom (carritos (Ejemplos.db_AB 3 1)))) 2 1]>
          (items (Ejemplos.db_AB 3 1)))
       (set_carritos
          (<[fresh (dom (carritos (Ejemplos.db_AB 3 1))) := mkCarrito 8]>
             (carritos (Ejemplos.db_AB 3 1))) (Ejemplos.db_AB 3 1))).
Proof.
  apply (agregar_al_carrito_primer_uso (Ejemplos.db_AB 3 1) 8 2 Ejemplos.producto_B).
  - unfold sin_carrito. simpl. por_tabla.
  - apply integridad_db_AB.
  - reflexivity.
Defined.

(** X20. Adding a product that is already in the user's cart, on one line: the
    line gains one unit when that keeps it within the stock of the product,
    and otherwise the view warns and writes nothing; no second line is
    made. *)
Theorem agregar_al_carrito_repetido db user carrito pk p k it :
  carrito_de db user carrito →
  productos db !! pk = Some p →
  items db !! k = Some it →
  carrito_id it = carrito.1 → producto_id it = pk →
  (∀ k' it', items db !! k' = Some it' →
     carrito_id it' = carrito.1 → producto_id it' = pk → k' = k) →
  (cantidad it + 1 ≤ stock p →
   agregar_al_carrito user pk db =
     (inr (redirect a_ver_carrito (success, AnadidaOtraUnidad (nombre p))),
      set_items (<[k := set_cantidad (cantidad it + 1) it]> (items db)) db)) ∧
  (cantidad it + 1 > stock p →
   agregar_al_carrito user pk db =
     (inr (redirect a_ver_carrito (warning, NoHaySuficienteStock (nombre p))), db)).
Proof.
  intros Hcar Hp Hk Hc Hpk Hunico.
  destruct (agregar_al_carrito_existente db user carrito pk p k it
              Hcar Hp Hk Hc Hpk Hunico) as [Hlleno Hcabe].
  by split.
Qed.

Lemma agregar_al_carrito_repetido_witness :
  agregar_al_carrito 7 1 (Ejemplos.db_AB 3 1) =
    (inr (redirect a_ver_carrito (success, AnadidaOtraUnidad "A")),
     set_items (<[1 := mkItemCarrito 1 1 4]> (items (Ejemplos.db_AB 3 1)))
       (Ejemplos.db_AB 3 1)) ∧
  agregar_al_carrito 7 1 (Ejemplos.db_AB 5 1) =
    (inr (redirect a_ver_carrito (warning, NoHaySuficienteStock "A")),
     Ejemplos.db_AB 5 1).
Proof.
  assert (Hunico : ∀ q k' it', items (Ejemplos.db_AB q 1) !! k' = Some it' →
            carrito_id it' = 1 → producto_id it' = 1 → k' = 1).
  { intros q. simpl. por_filas; intros; congruence. }
  split.
  - apply (proj1 (agregar_al_carrito_repetido (Ejemplos.db_AB 3 1) 7 (1, mkCarrito 7) 1
                    Ejemplos.producto_A 1 (mkItemCarrito 1 1 3)
                    (carrito_de_db_AB 3 1) eq_refl eq_refl eq_refl eq_refl (Hunico 3))).
    simpl. lia.
  - apply (proj2 (agregar_al_carrito_repetido (Ejemplos.db_AB 5 1) 7 (1, mkCarrito 7) 1
                    Ejemplos.producto_A 1 (mkItemCarrito 1 1 5)
                    (carrito_de_db_AB 5 1) eq_refl eq_refl eq_refl eq_refl (Hunico 5))).
    simpl. lia.
Defined.

(** X21. After [vaciar_carrito] has emptied the user's cart, the page of the cart
    shows no line and a total of 0, and the counter answers 0. *)
Theorem vaciar_carrito_muestra_vacio db user carrito :
  carrito_de db user carrito →
  let db' := (vaciar_carrito user db).2 in
  ver_carrito user db' = (inr (mkContextoCarrito [] 0), db') ∧
  api_carrito_cantidad user db' = (inr (mkJsonResponse 200 0 None), db').
Proof.
  intros Hcar.
  unfold vaciar_carrito, carrito_items_delete. desmonad.
  rewrite (Carrito_get_or_404_carrito_de _ _ _ Hcar). reduce_vista.
  set (db' := set_items _ db).
  assert (Hcar' : carrito_de db' user carrito) by done.
  assert (Hvacio : ∀ k it, items db' !! k = Some it → carrito_id it ≠ carrito.1).
  { subst db'. simpl. by intros k it [_ Hne]%lookup_queryset_delete_carrito_Some. }
  split.
  - unfold ver_carrito, Carrito_get_or_create. desmonad.
    rewrite (Carrito_get_carrito_de _ _ _ Hcar'). reduce_vista.
    by rewrite (carrito_items_select_related_nil _ _ Hvacio).
  - unfold api_carrito_cantidad, try_except_Exception. desmonad.
    rewrite (Carrito_get_carrito_de _ _ _ Hcar'). reduce_vista.
    unfold carrito_items_all.
    replace (objects_filter _ (items db')) with (@nil (Z * ItemCarrito)); [done|].
    symmetry. apply objects_filter_nil. intros k it Hk Hc. by eapply Hvacio.
Qed.

Lemma vaciar_carrito_muestra_vacio_witness :
  let db' := (vaciar_carrito 7 (Ejemplos.db_AB 3 1)).2 in
  ver_carrito 7 db' = (inr (mkContextoCarrito [] 0), db') ∧
  api_carrito_cantidad 7 db' = (inr (mkJsonResponse 200 0 None), db').
Proof.
  apply (vaciar_carrito_muestra_vacio (Ejemplos.db_AB 3 1) 7 (1, mkCarrito 7)).
  apply carrito_de_db_AB.
Defined.

(** ** The pages of the catalogue *)

Lemma StronglySorted_sublist {A} (R : relation A) (l1 l2 : list A) :
  l1 `sublist_of` l2 → StronglySorted R l2 → StronglySorted R l1.
Proof.
  intros Hsub. induction Hsub as [|x l1 l2 Hsub IH|x l1 l2 Hsub IH]; intros Hs.
  - done.
  - apply StronglySorted_cons in Hs as [Hall Hs]. apply StronglySorted_cons.
    split; [|by apply IH]. rewrite Forall_forall in Hall |- *.
    intros y Hy. apply Hall. by eapply elem_of_sublist.
  - apply StronglySorted_cons in Hs as [_ Hs]. by apply IH.
Qed.

Lemma listado_sublist get db :
  listado get db `sublist_of`
    order_by_creado_desc (objects_filter (λ p : Z * Producto, stock p.2 > 0) (productos db)).
Proof.
  unfold listado.
  set (l0 := order_by_creado_desc _).
  assert (H1 : match categoria_get get with
               | Entero c => filter (λ p : Z * Producto, categoria_id p.2 = c) l0
               | _ => l0
               end `sublist_of` l0).
  { destruct (categoria_get get); [done..|]. apply sublist_filter. }
  destruct (q_get get) as [[|a s]|]; [done| |done].
  etrans; [apply sublist_filter|done].
Qed.

(** What [catalogo] answers, in terms of the list it paginates. *)
Lemma catalogo_listado get db :
  categoria_get get ≠ NoEntero →
  catalogo get db =
    (let l := listado get db in
     productos ← try_except_2 (lift (paginator_page l (page_get get)))
                   PageNotAnInteger (lift (paginator_page l (Entero 1)))
                   EmptyPage (lift (paginator_page l
                                      (Entero (num_pages (Z.of_nat (length l))))));
     mret (mkContexto productos (default EmptyString (q_get get)))) db.
Proof.
  intros Hcat. unfold catalogo, listado. desmonad.
  destruct (categoria_get get); [done..|]. reflexivity.
Qed.

(** The page served is page [n] of the list for some valid number [n]. *)
Lemma pagina_servida {A} (l : list A) number db :
  ∃ l' n,
    try_except_2 (lift (paginator_page l number))
      PageNotAnInteger (lift (paginator_page l (Entero 1)))
      EmptyPage (lift (paginator_page l (Entero (num_pages (Z.of_nat (length l)))))) db
    = (inr l', db) ∧
    paginator_page l (Entero n) = inr l' ∧
    (int_param number 1 = None → n = 1) ∧
    (∀ m, int_param number 1 = Some m →
       if decide (1 ≤ m ≤ num_pages (Z.of_nat (length l))) then n = m
       else n = num_pages (Z.of_nat (length l))).
Proof.
  unfold try_except_2, lift.
  destruct (paginator_page_primera l) as [l1 Hl1].
  destruct (paginator_page_ultima l) as [lu Hlu].
  unfold paginator_page at 1. unfold validate_number.
  destruct (int_param number 1) as [m|] eqn:Hm.
  - destruct (decide (m < 1)).
    { rewrite decide_False by done. rewrite decide_True by done. rewrite Hlu.
      exists lu, (num_pages (Z.of_nat (length l))). repeat split; [done..|].
      intros ? [= <-]. by rewrite decide_False by lia. }
    destruct (decide (m > num_pages (Z.of_nat (length l)))).
    { rewrite decide_False by done. rewrite decide_True by done. rewrite Hlu.
      exists lu, (num_pages (Z.of_nat (length l))). repeat split; [done..|].
      intros ? [= <-]. by rewrite decide_False by lia. }
    eexists _, m. split; [reflexivity|]. split.
    + unfold paginator_page, validate_number. cbn [int_param].
      rewrite decide_False by done. by rewrite decide_False by done.
    + split; [done|]. intros ? [= <-]. by rewrite decide_True by lia.
  - rewrite decide_True by done. rewrite Hl1. exists l1, 1. by repeat split.
Qed.

Lemma paginator_page_sublist {A} (l l' : list A) number :
  paginator_page l number = inr l' →
  l' `sublist_of` l ∧ (Z.of_nat (length l') ≤ per_page).
Proof.
  unfold paginator_page, slice, per_page.
  destruct (validate_number _ number) as [e|n] eqn:Hval; [done|]. intros [= <-].
  split.
  - etrans; [apply sublist_take|apply sublist_drop].
  - rewrite length_take. case_decide; lia.
Qed.

Lemma elem_of_listado get db x :
  x ∈ listado get db ↔
  productos db !! x.1 = Some x.2 ∧ stock x.2 > 0 ∧ pasa_filtros get x.
Proof.
  unfold listado, pasa_filtros.
  set (l0 := order_by_creado_desc _).
  assert (H0 : x ∈ l0 ↔ productos db !! x.1 = Some x.2 ∧ stock x.2 > 0).
  { subst l0. unfold order_by_creado_desc. rewrite merge_sort_Permutation.
    rewrite elem_of_objects_filter. tauto. }
  set (l1 := match categoria_get get with Entero c => _ | _ => l0 end).
  assert (H1 : x ∈ l1 ↔ x ∈ l0 ∧ match categoria_get get with
                                 | Entero c => categoria_id x.2 = c
                                 | _ => True
                                 end).
  { subst l1. destruct (categoria_get get); [tauto..|].
    rewrite list_elem_of_filter. tauto. }
  destruct (q_get get) as [[|a s]|]; [tauto| |tauto].
  rewrite list_elem_of_filter. tauto.
Qed.

Lemma listado_ordenado get db :
  StronglySorted mas_reciente (listado get db) ∧ NoDup (listado get db).
Proof.
  pose proof (listado_sublist get db) as Hsub. split.
  - eapply StronglySorted_sublist; [exact Hsub|].
    apply (StronglySorted_merge_sort mas_reciente).
  - eapply sublist_NoDup; [|exact Hsub]. unfold order_by_creado_desc.
    rewrite merge_sort_Permutation. apply NoDup_objects_filter.
Qed.

Lemma catalogo_inr get db ctx :
  (catalogo get db).1 = inr ctx →
  ∃ n, paginator_page (listado get db) (Entero n) = inr (ctx_productos ctx) ∧
       ctx_query ctx = default EmptyString (q_get get).
Proof.
  intros Hctx.
  assert (Hcat : categoria_get get ≠ NoEntero).
  { intros Hno. unfold catalogo in Hctx. desmonad. by rewrite Hno in Hctx. }
  rewrite (catalogo_listado get db Hcat) in Hctx. desmonad. cbv zeta in Hctx.
  destruct (pagina_servida (listado get db) (page_get get) db)
    as (l' & n & Hrun & Hpage & _).
  rewrite Hrun in Hctx. simpl in Hctx. injection Hctx as <-. by exists n.
Qed.

(** X22. Every page that [catalogo] hands to the template has at most 12
    products, lists no product twice, runs from the newest to the oldest, and
    holds only products of the category asked for and products that contain
    the text asked for in their name, brand or model; the query is echoed. *)
Theorem catalogo_pagina get db ctx :
  (catalogo get db).1 = inr ctx →
  (length (ctx_productos ctx) ≤ 12)%nat ∧
  NoDup (ctx_productos ctx) ∧
  StronglySorted mas_reciente (ctx_productos ctx) ∧
  (∀ x, x ∈ ctx_productos ctx → pasa_filtros get x) ∧
  ctx_query ctx = default EmptyString (q_get get).
Proof.
  intros (n & Hpage & Hq)%catalogo_inr.
  apply paginator_page_sublist in Hpage as [Hsub Hlen].
  destruct (listado_ordenado get db) as [Hsorted Hnd].
  split; [unfold per_page in Hlen; lia|]. split; [by eapply sublist_NoDup|].
  split; [by eapply StronglySorted_sublist|]. split; [|done].
  intros x Hx. by apply (elem_of_listado get db), (elem_of_sublist _ _ _ Hx).
Qed.

Lemma catalogo_pagina_witness :
  let get := mkGET (Entero 1) (Some "MARCA"%string) (Entero 1) in
  let ctx := mkContexto [(2, Ejemplos.producto_B); (1, Ejemplos.producto_A)] "MARCA" in
  (catalogo get Ejemplos.db_inicial).1 = inr ctx ∧
  (length (ctx_productos ctx) ≤ 12)%nat ∧
  NoDup (ctx_productos ctx) ∧
  StronglySorted mas_reciente (ctx_productos ctx) ∧
  (∀ x, x ∈ ctx_productos ctx → pasa_filtros get x) ∧
  ctx_query ctx = default EmptyString (q_get get).
Proof.
  intros get ctx.
  assert (Hctx : (catalogo get Ejemplos.db_inicial).1 = inr ctx)
    by (vm_compute; reflexivity).
  split; [exact Hctx|]. exact (catalogo_pagina get Ejemplos.db_inicial ctx Hctx).
Defined.

Lemma catalogo_pagina_efectiva get db number n :
  (match int_param number 1 with
   | None => n = 1
   | Some m =>
       if decide (1 ≤ m ≤ num_pages (Z.of_nat (length (listado get db)))) then n = m
       else n = num_pages (Z.of_nat (length (listado get db)))
   end) →
  catalogo (con_pagina get number) db = catalogo (con_pagina get (Entero n)) db.
Proof.
  intros Hn.
  assert (Hcasos : categoria_get get = NoEntero ∨ categoria_get get ≠ NoEntero)
    by (destruct (categoria_get get); auto).
  destruct Hcasos as [Hno|Hcat].
  { unfold catalogo. desmonad. cbn [categoria_get con_pagina]. by rewrite Hno. }
  rewrite !catalogo_listado by done.
  change (listado (con_pagina get number) db) with (listado get db).
  change (listado (con_pagina get (Entero n)) db) with (listado get db).
  cbn [page_get con_pagina q_get]. desmonad. cbv zeta.
  pose proof (num_pages_pos (Z.of_nat (length (listado get db)))) as HN.
  destruct (pagina_servida (listado get db) number db)
    as (l1 & n1 & -> & Hpage1 & Hnone1 & Hsome1).
  destruct (pagina_servida (listado get db) (Entero n) db)
    as (l2 & n2 & -> & Hpage2 & _ & Hsome2).
  specialize (Hsome2 n eq_refl).
  assert (n1 = n2) as ->; [|congruence].
  destruct (int_param number 1) as [m|].
  - specialize (Hsome1 m eq_refl). repeat case_decide; lia.
  - specialize (Hnone1 eq_refl). repeat case_decide; lia.
Qed.

(** X23. A page number that is missing or is not an integer shows page 1, and an
    integer below 1 or beyond the last page shows the last page. *)
Theorem catalogo_pagina_por_defecto get db :
  catalogo (con_pagina get Ausente) db = catalogo (con_pagina get (Entero 1)) db ∧
  catalogo (con_pagina get NoEntero) db = catalogo (con_pagina get (Entero 1)) db ∧
  ∀ n, n < 1 ∨ n > num_pages (Z.of_nat (length (listado get db))) →
    catalogo (con_pagina get (Entero n)) db =
    catalogo (con_pagina get
                (Entero (num_pages (Z.of_nat (length (listado get db)))))) db.
Proof.
  pose proof (num_pages_pos (Z.of_nat (length (listado get db)))) as HN.
  split; [|split].
  - apply catalogo_pagina_efectiva. cbn [int_param]. by rewrite decide_True by lia.
  - by apply catalogo_pagina_efectiva.
  - intros n Hn. apply catalogo_pagina_efectiva. cbn [int_param].
    by rewrite decide_False by lia.
Qed.

Lemma catalogo_pagina_por_defecto_witness :
  let get := mkGET Ausente None Ausente in
  catalogo (con_pagina get (Entero 0)) Ejemplos.db_inicial =
  catalogo (con_pagina get
              (Entero (num_pages (Z.of_nat (length (listado get Ejemplos.db_inicial))))))
           Ejemplos.db_inicial.
Proof.
  intros get.
  apply (proj2 (proj2 (catalogo_pagina_por_defecto get Ejemplos.db_inicial)) 0).
  left. lia.
Defined.

(** X24. Every product in stock that passes the filters of the request is on one
    of the pages, and on one only: there is a page number, between 1 and the
    number of pages, whose page shows it, and no other page in that range
    does. *)
Theorem catalogo_completo get db pk p :
  categoria_get get ≠ NoEntero →
  productos db !! pk = Some p →
  stock p > 0 →
  pasa_filtros get (pk, p) →
  ∃ n, 1 ≤ n ≤ num_pages (Z.of_nat (length (listado get db))) ∧
    (∃ ctx, catalogo (con_pagina get (Entero n)) db = (inr ctx, db) ∧
            (pk, p) ∈ ctx_productos ctx) ∧
    (∀ m ctx, 1 ≤ m ≤ num_pages (Z.of_nat (length (listado get db))) →
       (catalogo (con_pagina get (Entero m)) db).1 = inr ctx →
       (pk, p) ∈ ctx_productos ctx → m = n).
Proof.
  intros Hcat Hp Hstock Hpasa.
  assert (Hin : (pk, p) ∈ listado get db) by by apply elem_of_listado.
  destruct (listado_ordenado get db) as [_ Hnd].
  apply list_elem_of_lookup_1 in Hin as [i Hi].
  pose proof (lookup_lt_Some _ _ _ Hi) as Hlt.
  set (l := listado get db) in *. set (N := num_pages (Z.of_nat (length l))).
  assert (Hpag : ∀ m, 1 ≤ m ≤ N →
            paginator_page l (Entero m) =
              inr (slice l ((m - 1) * 12)
                     (if decide ((m - 1) * 12 + 12 >= Z.of_nat (length l))
                      then Z.of_nat (length l) else (m - 1) * 12 + 12))).
  { intros m Hm. unfold paginator_page, validate_number, per_page. cbn [int_param].
    rewrite decide_False by lia. by rewrite decide_False by (fold N; lia). }
  assert (Hcat' : ∀ m ctx, 1 ≤ m ≤ N →
            (catalogo (con_pagina get (Entero m)) db).1 = inr ctx →
            ctx_productos ctx = slice l ((m - 1) * 12)
                     (if decide ((m - 1) * 12 + 12 >= Z.of_nat (length l))
                      then Z.of_nat (length l) else (m - 1) * 12 + 12)).
  { intros m ctx Hm Hctx. rewrite catalogo_listado in Hctx by done.
    change (listado (con_pagina get (Entero m)) db) with l in Hctx.
    cbn [page_get con_pagina q_get] in Hctx. desmonad. cbv zeta in Hctx.
    unfold try_except_2, lift in Hctx. rewrite (Hpag m Hm) in Hctx.
    simpl in Hctx. by injection Hctx as <-. }
  assert (Hslice : ∀ m, 1 ≤ m ≤ N → ∀ x,
            x ∈ slice l ((m - 1) * 12)
                  (if decide ((m - 1) * 12 + 12 >= Z.of_nat (length l))
                   then Z.of_nat (length l) else (m - 1) * 12 + 12) ↔
            ∃ j, l !! j = Some x ∧ (m - 1) * 12 ≤ Z.of_nat j < (m - 1) * 12 + 12).
  { intros m Hm x. unfold slice. rewrite elem_of_take. split.
    - intros (j & Hj & Hjlt). rewrite lookup_drop in Hj.
      exists (Z.to_nat ((m - 1) * 12) + j)%nat. split; [done|].
      case_decide; lia.
    - intros (j & Hj & Hrange). exists (j - Z.to_nat ((m - 1) * 12))%nat.
      pose proof (lookup_lt_Some _ _ _ Hj).
      rewrite lookup_drop. split.
      + rewrite <- Hj. f_equal. lia.
      + case_decide; lia. }
  set (n := Z.of_nat i / 12 + 1).
  assert (Hdiv : 12 * (Z.of_nat i / 12) ≤ Z.of_nat i < 12 * (Z.of_nat i / 12) + 12).
  { pose proof (Z.mul_div_le (Z.of_nat i) 12). pose proof (Z.mod_pos_bound (Z.of_nat i) 12).
    pose proof (Z.div_mod (Z.of_nat i) 12). lia. }
  assert (Hn : 1 ≤ n ≤ N).
  { subst n N. unfold num_pages, per_page. split.
    - pose proof (Z.div_pos (Z.of_nat i) 12). lia.
    - assert (Z.of_nat i / 12 + 1 = (Z.of_nat i + 12) / 12) as ->.
      { by rewrite <- (Z.div_add (Z.of_nat i) 1 12) by lia. }
      apply Z.div_le_mono; lia. }
  exists n. split; [done|]. split.
  - rewrite catalogo_listado by done.
    change (listado (con_pagina get (Entero n)) db) with l.
    cbn [page_get con_pagina q_get]. desmonad. cbv zeta.
    unfold try_except_2, lift. rewrite (Hpag n Hn). eexists. split; [reflexivity|].
    cbn [ctx_productos]. apply (Hslice n Hn). exists i. split; [done|]. subst n. lia.
  - intros m ctx Hm Hctx Hx. rewrite (Hcat' m ctx Hm Hctx) in Hx.
    apply (Hslice m Hm) in Hx as (j & Hj & Hrange).
    assert (j = i) as -> by (eapply NoDup_lookup; eauto).
    subst n. lia.
Qed.

Lemma catalogo_completo_witness :
  let get := mkGET Ausente None Ausente in
  ∃ n, 1 ≤ n ≤ num_pages (Z.of_nat (length (listado get Ejemplos.db_inicial))) ∧
    (∃ ctx, catalogo (con_pagina get (Entero n)) Ejemplos.db_inicial =
              (inr ctx, Ejemplos.db_inicial) ∧
            (1, Ejemplos.producto_A) ∈ ctx_productos ctx) ∧
    (∀ m ctx, 1 ≤ m ≤ num_pages (Z.of_nat (length (listado get Ejemplos.db_inicial))) →
       (catalogo (con_pagina get (Entero m)) Ejemplos.db_inicial).1 = inr ctx →
       (1, Ejemplos.producto_A) ∈ ctx_productos ctx → m = n).
Proof.
  intros get.
  apply (catalogo_completo get Ejemplos.db_inicial 1 Ejemplos.producto_A).
  - discriminate.
  - reflexivity.
  - simpl. lia.
  - split; exact I.
Defined.

(** ** producto_eliminar *)

(** X25. [producto_eliminar] sends to the login page, and writes nothing, anyone
    who is not logged in or is not staff.  For a staff user it answers 404
    for a key that is no product; on a request that is not a POST it shows
    the confirmation page and writes nothing; on a POST it deletes the
    product and, with it, exactly the cart lines of that product, leaving
    carts, other products and other lines as they were, so that no line is
    left pointing to a missing product. *)
Theorem producto_eliminar_spec db user method pk :
  (is_authenticated user = false ∨ is_staff user = false →
   producto_eliminar method pk user db = (inr redirect_to_login, db)) ∧
  (is_authenticated user = true → is_staff user = true →
   (productos db !! pk = None →
    producto_eliminar method pk user db = (inl Http404, db)) ∧
   (∀ p, productos db !! pk = Some p →
      (method ≠ "POST"%string →
       producto_eliminar method pk user db = (inr (respuesta (Confirmar (pk, p))), db)) ∧
      (method = "POST"%string →
       ∃ db', producto_eliminar method pk user db = (inr (respuesta ProductoEliminado), db') ∧
         productos db' = delete pk (productos db) ∧
         carritos db' = carritos db ∧
         (∀ k it, items db' !! k = Some it ↔
                  items db !! k = Some it ∧ producto_id it ≠ pk) ∧
         (integridad db → integridad db')))).
Proof.
  unfold producto_eliminar, login_required, user_passes_test, es_admin.
  split.
  - intros [Hauth|Hstaff].
    + by rewrite Hauth.
    + destruct (is_authenticated user); [|done]. by rewrite Hstaff.
  - intros -> ->. split.
    + intros Hp. desmonad. by rewrite (Producto_get_or_404_None _ _ Hp).
    + intros p Hp. split; intros Hm; desmonad;
        rewrite (Producto_get_or_404_Some _ _ _ Hp).
      * by rewrite decide_False by done.
      * rewrite decide_True by done. unfold Producto_delete, instance_delete. desmonad.
        eexists. split; [reflexivity|]. simpl.
        assert (Hitems : ∀ k it,
          queryset_delete (λ it : Z * ItemCarrito, producto_id it.2 = pk) (items db) !! k
            = Some it ↔ items db !! k = Some it ∧ producto_id it ≠ pk).
        { intros k it. unfold queryset_delete. rewrite map_lookup_filter_Some. done. }
        split; [done|]. split; [done|]. split; [exact Hitems|].
        intros Hint k it [Hk Hne]%Hitems. destruct (Hint k it Hk) as [Hprod Hcart].
        split; [|done]. simpl. by rewrite lookup_delete_ne.
Qed.

Lemma producto_eliminar_spec_witness :
  let db := Ejemplos.db_AB 3 1 in
  producto_eliminar "POST" 1 (mkUser 7 true false) db = (inr redirect_to_login, db) ∧
  producto_eliminar "POST" 99 (mkUser 1 true true) db = (inl Http404, db) ∧
  producto_eliminar "GET" 1 (mkUser 1 true true) db =
    (inr (respuesta (Confirmar (1, Ejemplos.producto_A))), db) ∧
  ∃ db', producto_eliminar "POST" 1 (mkUser 1 true true) db =
           (inr (respuesta ProductoEliminado), db') ∧
    productos db' = delete 1 (productos db) ∧
    carritos db' = carritos db ∧
    (∀ k it, items db' !! k = Some it ↔ items db !! k = Some it ∧ producto_id it ≠ 1) ∧
    (integridad db → integridad db').
Proof.
  intros db.
  split; [|split; [|split]].
  - apply (proj1 (producto_eliminar_spec db (mkUser 7 true false) "POST" 1)). by right.
  - apply (proj1 (proj2 (producto_eliminar_spec db (mkUser 1 true true) "POST" 99)
                    eq_refl eq_refl)).
    reflexivity.
  - apply (proj1 (proj2 (proj2 (producto_eliminar_spec db (mkUser 1 true true) "GET" 1)
                           eq_refl eq_refl) Ejemplos.producto_A eq_refl)).
    discriminate.
  - apply (proj2 (proj2 (proj2 (producto_eliminar_spec db (mkUser 1 true true) "POST" 1)
                           eq_refl eq_refl) Ejemplos.producto_A eq_refl)).
    reflexivity.
Defined.

(** ** producto_detalle *)

(** X26. [producto_detalle] shows the product of that key whatever its stock,
    answers 404 when there is none, and writes nothing. *)
Theorem producto_detalle_spec db pk :
  producto_detalle pk db =
    (match productos db !! pk with
     | Some p => inr (pk, p)
     | None => inl Http404
     end, db).
Proof.
  unfold producto_detalle. desmonad.
  destruct (productos db !! pk) as [p|] eqn:Hp.
  - by rewrite (Producto_get_or_404_Some _ _ _ Hp).
  - by rewrite (Producto_get_or_404_None _ _ Hp).
Qed.

(** ** The payment and the stock *)

(** X27. A product without stock that gets into the cart (the view adds it with
    quantity 1) makes the payment of that cart fail: the next
    [procesar_pago] answers with the insufficient-stock error and writes
    nothing. *)
Theorem agotado_bloquea_pago db user carrito pk p :
  carrito_de db user carrito →
  productos db !! pk = Some p →
  stock p ≤ 0 →
  (∀ k it, items db !! k = Some it →
     ¬ (carrito_id it = carrito.1 ∧ producto_id it = pk)) →
  let db' := (agregar_al_carrito user pk db).2 in
  exito (agregar_al_carrito user pk db).1 ∧
  InsufficientStock (procesar_pago user db').1 ∧
  (procesar_pago user db').2 = db'.
Proof.
  intros Hcar Hp Hstock Hno.
  rewrite (agregar_al_carrito_nuevo db user carrito pk p Hcar Hp Hno). cbn [fst snd].
  split; [done|].
  set (k := fresh (dom (items db))). set (db' := set_items _ db).
  assert (Hcar' : carrito_de db' user carrito) by done.
  assert (Hin : ((k, mkItemCarrito carrito.1 pk 1), (pk, p))
                  ∈ carrito_items_select_related carrito db').
  { apply elem_of_carrito_items_select_related. subst db'. simpl.
    by rewrite lookup_insert_eq. }
  unfold procesar_pago. desmonad.
  rewrite (Carrito_get_or_404_carrito_de _ _ _ Hcar'). reduce_vista.
  destruct (carrito_items_select_related carrito db') as [|x its] eqn:Hits.
  { by apply elem_of_nil in Hin. }
  destruct (verificar_stock (x :: its)) as [r|] eqn:Hver.
  - apply verificar_stock_Some in Hver as (? & ? & _ & _ & ->). by split.
  - exfalso. rewrite verificar_stock_None in Hver.
    specialize (Hver _ _ Hin). simpl in Hver. lia.
Qed.

Lemma agotado_bloquea_pago_witness :
  let db' := (agregar_al_carrito 7 3 (Ejemplos.db_AB 3 1)).2 in
  exito (agregar_al_carrito 7 3 (Ejemplos.db_AB 3 1)).1 ∧
  InsufficientStock (procesar_pago 7 db').1 ∧
  (procesar_pago 7 db').2 = db'.
Proof.
  apply (agotado_bloquea_pago (Ejemplos.db_AB 3 1) 7 (1, mkCarrito 7) 3
           Ejemplos.producto_agotado).
  - apply carrito_de_db_AB.
  - reflexivity.
  - simpl. lia.
  - simpl. por_filas; simpl; intros [_ ?]; discriminate.
Defined.

Lemma stock_total_insert db k p n :
  productos db !! k = Some p →
  stock_total (set_productos (<[k := set_stock n p]> (productos db)) db) =
  stock_total db - stock p + n.
Proof.
  intros Hk. unfold stock_total. simpl.
  pose proof (map_to_list_delete (productos db) k p Hk) as Hold.
  pose proof (map_to_list_insert (delete k (productos db)) k (set_stock n p)
                (lookup_delete_eq _ _)) as Hnew.
  rewrite insert_delete_eq in Hnew.
  rewrite (sum_Permutation _ _ (fmap_Permutation _ _ _ Hnew)).
  rewrite <- (sum_Permutation _ _ (fmap_Permutation _ _ _ Hold)).
  simpl. rewrite !sum_cons. simpl. lia.
Qed.

Lemma actualizar_stock_total its db :
  NoDup its.*2.*1 →
  (∀ item producto, (item, producto) ∈ its →
     productos db !! producto.1 = Some producto.2) →
  stock_total (actualizar_stock its db).2 =
  stock_total db - py_sum ((λ x : (Z * ItemCarrito) * (Z * Producto), cantidad x.1.2) <$> its).
Proof.
  revert db. induction its as [|[item producto] resto IH]; intros db Hnd Hfilas.
  - simpl. rewrite sum_nil. lia.
  - simpl in Hnd. apply NoDup_cons in Hnd as [Hk Hnd].
    rewrite fmap_cons, sum_cons. set (resto_unidades := py_sum _).
    simpl. unfold Producto_save, instance_save. desmonad. reduce_vista.
    pose proof (Hfilas item producto (list_elem_of_here _ _)) as Hp.
    set (db1 := set_productos _ db).
    assert (Hresto : ∀ i q, (i, q) ∈ resto → productos db1 !! q.1 = Some q.2).
    { intros i q Hin. subst db1. simpl. rewrite lookup_insert_ne.
      - apply (Hfilas i q). by right.
      - intros Heq. apply Hk. rewrite Heq.
        apply list_elem_of_fmap. exists q. split; [done|].
        apply list_elem_of_fmap. by exists (i, q). }
    specialize (IH db1 Hnd Hresto).
    destruct (actualizar_stock resto db1) as [r db2]. cbn [snd] in *.
    rewrite IH. subst db1 resto_unidades. rewrite (stock_total_insert db _ _ _ Hp).
    lia.
Qed.

(** X28. A payment that goes through, for a cart with at most one line per
    product in a database whose items point to existing products, takes out
    of the stock exactly the units that were in the cart: the stock summed
    over all products falls by the number [Carrito.cantidad_items] gave. *)
Theorem procesar_pago_conserva db user carrito :
  carrito_de db user carrito →
  un_item_por_producto db →
  integridad db →
  (procesar_pago user db).1 = inr (redirect a_catalogo (success, PagoProcesado)) →
  ∃ n, Carrito_cantidad_items carrito db = (inr n, db) ∧
       stock_total (procesar_pago user db).2 = stock_total db - n.
Proof.
  intros Hcar Huniq Hint Hexito. eexists. split.
  { unfold Carrito_cantidad_items. desmonad. reflexivity. }
  destruct (procesar_pago_inv db user) as [Heq|(carrito' & ps & Hcar' & Hver & Hrun & Hpago)].
  { exfalso. revert Hexito.
    unfold procesar_pago, carrito_items_delete. desmonad.
    rewrite (Carrito_get_or_404_carrito_de _ _ _ Hcar). reduce_vista.
    destruct (carrito_items_select_related carrito db) as [|x its] eqn:Hits; [done|].
    destruct (verificar_stock (x :: its)) as [r|] eqn:Hver.
    - intros [= ->]. apply verificar_stock_Some in Hver as (? & ? & _ & _ & [=]).
    - intros _.
      assert (Hx : x ∈ carrito_items_select_related carrito db) by (rewrite Hits; left).
      destruct x as [[k it] [pk q]].
      apply elem_of_carrito_items_select_related in Hx as (Hk & Hc & _ & _).
      assert (Hgone : items (procesar_pago user db).2 !! k = None).
      { unfold procesar_pago, carrito_items_delete. desmonad.
        rewrite (Carrito_get_or_404_carrito_de _ _ _ Hcar). reduce_vista.
        rewrite Hits, Hver.
        destruct (actualizar_stock_spec ((k, it, (pk, q)) :: its) db) as (ps & -> & _).
        reduce_vista. rewrite lookup_queryset_delete_carrito. simpl in *.
        rewrite Hk. by rewrite decide_True. }
      rewrite Heq in Hgone. simpl in *. congruence. }
  assert (carrito' = carrito) as ->.
  { destruct Hcar as (Hc & Hu & Hunico), Hcar' as (Hc' & Hu' & _).
    destruct carrito as [k c], carrito' as [k' c']. simpl in *.
    assert (k' = k) by eauto. subst. congruence. }
  rewrite Hpago. cbn [snd].
  change (stock_total (set_items _ (set_productos ps db)))
    with (stock_total (set_productos ps db)).
  replace (set_productos ps db)
    with (actualizar_stock (carrito_items_select_related carrito db) db).2
    by by rewrite Hrun.
  rewrite actualizar_stock_total.
  - f_equal. f_equal. rewrite <- (carrito_items_select_related_integro carrito db Hint).
    rewrite <- list_fmap_compose. by apply list_fmap_ext.
  - apply NoDup_productos_de_carrito. intros k1 k2 it1 it2 H1 H2 Hc1 Hc2 Hp.
    eapply Huniq; eauto. congruence.
  - intros [k it] [pk q] Hin.
    by apply elem_of_carrito_items_select_related in Hin as (_ & _ & _ & ?).
Qed.

Lemma procesar_pago_conserva_witness :
  ∃ n, Carrito_cantidad_items (1, mkCarrito 7) (Ejemplos.db_AB 2 1) =
         (inr n, Ejemplos.db_AB 2 1) ∧
       stock_total (procesar_pago 7 (Ejemplos.db_AB 2 1)).2 =
         stock_total (Ejemplos.db_AB 2 1) - n.
Proof.
  apply (procesar_pago_conserva (Ejemplos.db_AB 2 1) 7 (1, mkCarrito 7)).
  - apply carrito_de_db_AB.
  - unfold un_item_por_producto. simpl. intros k1 k2 it1 it2 Hk1 Hk2.
    revert k2 it2 Hk2. revert k1 it1 Hk1. por_filas; por_filas; congruence.
  - apply integridad_db_AB.
  - vm_compute. reflexivity.
Defined.

(** The figures of that payment: 7 units in stock, 3 in the cart, 4 left. *)
Example procesar_pago_conserva_db_AB :
  stock_total (Ejemplos.db_AB 2 1) = 7 ∧
  stock_total (procesar_pago 7 (Ejemplos.db_AB 2 1)).2 = 4.
Proof. vm_compute. done. Qed.
